(** * fetch_paper_info.py: classification, enrichment and formatting

    A shallow embedding of the pure and control-flow parts of
    [fetch_paper_info.py].  Python [str] values are [string]s whose
    characters are the code points below 256; Python [int]s are [Z].
    The network-facing functions (the adapters and the two citation
    look-ups) are black boxes: they are calls to a [network] whose answers
    may depend on the calls made so far, and every call is logged. *)

From Stdlib Require Import ZArith List Bool Ascii String Lia.
From Stdlib Require Import Numbers.DecimalString Numbers.DecimalPos
  Numbers.DecimalZ.
Import ListNotations.

Open Scope string_scope.

(** ** Python string primitives *)

Module Py.

(** [str.isspace] on one character, restricted to code points below 256:
    TAB..CR, FS..US, SPACE, NEL and NBSP.  The same set is [\s] of [re]. *)
Definition isspace (c : ascii) : bool :=
  let n := nat_of_ascii c in
  (((9 <=? n) && (n <=? 13)) || ((28 <=? n) && (n <=? 32))
   || (n =? 133) || (n =? 160))%nat.

(** [\d] of [re] on [str]: below 256 the decimal digits are [0-9]. *)
Definition isdigit (c : ascii) : bool :=
  let n := nat_of_ascii c in ((48 <=? n) && (n <=? 57))%nat.

Definition is_empty (s : string) : bool :=
  match s with EmptyString => true | String _ _ => false end.

(** [s.split()]: the maximal runs of non-whitespace characters.  [cur] is
    the token being read. *)
Fixpoint split_from (s cur : string) : list string :=
  match s with
  | EmptyString => if is_empty cur then [] else [cur]
  | String c s' =>
      if isspace c
      then (if is_empty cur then split_from s' "" else cur :: split_from s' "")
      else split_from s' (cur ++ String c "")
  end.

Definition split (s : string) : list string := split_from s "".

(** [sep.join(l)] *)
Fixpoint join (sep : string) (l : list string) : string :=
  match l with
  | [] => ""
  | [x] => x
  | x :: l' => x ++ sep ++ join sep l'
  end.

(** [s.rstrip(c)] for a one-character argument *)
Fixpoint rstrip (c : ascii) (s : string) : string :=
  match s with
  | EmptyString => ""
  | String a s' =>
      match rstrip c s' with
      | EmptyString => if Ascii.eqb a c then "" else String a ""
      | r => String a r
      end
  end.

(** [p[0]].  On the empty string Python raises [IndexError]; the only
    callers index tokens of [split], which are never empty
    ([initials_defined] below), so that case is given [""] here. *)
Definition first_char (p : string) : string :=
  match p with
  | EmptyString => ""
  | String c _ => String c ""
  end.

(** [l[-1]] and [l[:-1]] on a non-empty list *)
Definition last_item (l : list string) : string := last l "".
Definition but_last (l : list string) : list string := removelast l.

(** [str(n)] for an [int] *)
Definition str_of_int (n : Z) : string := NilZero.string_of_int (Z.to_int n).

End Py.

(** ** Records

    [paper_info] is the dict the adapters build.  The program only ever
    uses the five keys below, so the dict is a record of optional fields:
    [None] is an absent key, and the dict with no key is [empty_dict]. *)

(** The value under ['citations']: an [int], the string ['N/A'], or
    [None] (a JSON [null] handed through by [data.get('citationCount', 'N/A')]). *)
Inductive citations : Type :=
| Count (n : Z)
| NA
| Null.

Definition citations_eqb (a b : citations) : bool :=
  match a, b with
  | Count x, Count y => Z.eqb x y
  | NA, NA => true
  | Null, Null => true
  | _, _ => false
  end.

(** What an f-string prints for the value *)
Definition citations_str (c : citations) : string :=
  match c with
  | Count n => Py.str_of_int n
  | NA => "N/A"
  | Null => "None"
  end.

Record paper_info : Type := mk_paper_info {
  title : option string;
  authors : option (list string);
  year : option string;
  venue : option string;
  cites : option citations
}.

Definition empty_dict : paper_info := mk_paper_info None None None None None.

(** [paper_info['citations'] = c] *)
Definition set_citations (p : paper_info) (c : citations) : paper_info :=
  mk_paper_info (title p) (authors p) (year p) (venue p) (Some c).

(** Truth value of a dict: false exactly when it has no key *)
Definition dict_truthy (p : paper_info) : bool :=
  match title p, authors p, year p, venue p, cites p with
  | None, None, None, None, None => false
  | _, _, _, _, _ => true
  end.

(** Truth value of an [Optional[dict]] *)
Definition truthy (p : option paper_info) : bool :=
  match p with
  | None => false
  | Some d => dict_truthy d
  end.

(** ** Output formatter *)

(** The body of the [for author in authors] loop of [format_authors] *)
Definition display_name (author : string) : string :=
  let parts := Py.split author in
  if (1 <? List.length parts)%nat then
    let last_name := Py.last_item parts in
    let initials := Py.join ". " (map Py.first_char (Py.but_last parts)) in
    last_name ++ ", " ++ initials ++ "."
  else author.

Definition format_authors (authors : list string) (max_authors : Z) : string :=
  match authors with
  | [] => "Unknown Authors"
  | first :: _ =>
      if (Z.of_nat (List.length authors) <=? max_authors)%Z then
        let formatted := map display_name authors in
        let result :=
          match formatted with
          | [a] => a
          | [a; b] => a ++ " and " ++ b
          | _ => Py.join ", " (Py.but_last formatted)
                   ++ ", and " ++ Py.last_item formatted
          end in
        Py.rstrip "." result
      else
        let parts := Py.split first in
        if (1 <? List.length parts)%nat then
          let last_name := Py.last_item parts in
          let initials :=
            Py.join ". " (map Py.first_char (Py.but_last parts)) ++ "." in
          last_name ++ ", " ++ initials ++ " et al"
        else first ++ " et al"
  end.

(** ** Exceptions *)

Inductive exn : Type :=
| KeyError (key : string)
| SystemExit (code : Z).

Inductive result (A : Type) : Type :=
| Ok (a : A)
| Raise (e : exn).
Arguments Ok {A} a.
Arguments Raise {A} e.

(** [d[key]] on a field of the dict *)
Definition getitem {A : Type} (key : string) (field : option A) : result A :=
  match field with
  | Some v => Ok v
  | None => Raise (KeyError key)
  end.

Definition rbind {A B : Type} (r : result A) (f : A -> result B) : result B :=
  match r with
  | Ok a => f a
  | Raise e => Raise e
  end.

Definition error_line : string := "Error: Could not fetch paper information".

Definition format_output (paper_info : option paper_info) (max_authors : Z)
  : result string :=
  match paper_info with
  | None => Ok error_line
  | Some d =>
      if negb (dict_truthy d) then Ok error_line
      else
        rbind (getitem "title" (title d)) (fun title =>
        rbind (getitem "authors" (authors d)) (fun l =>
        let authors := format_authors l max_authors in
        rbind (getitem "year" (year d)) (fun year =>
        rbind (getitem "venue" (venue d)) (fun venue =>
        rbind (getitem "citations" (cites d)) (fun citations =>
        Ok ("**" ++ title ++ "** " ++ authors ++ ". " ++ year ++ ". "
              ++ venue ++ ". Citations: " ++ citations_str citations))))))
  end.

Definition test_paper_1 : paper_info :=
  mk_paper_info
    (Some "Attention Is All You Need")
    (Some ["Ashish Vaswani"; "Noam Shazeer"; "Niki Parmar"; "Jakob Uszkoreit";
           "Llion Jones"; "Aidan N. Gomez"; "Lukasz Kaiser"; "Illia Polosukhin"])
    (Some "2017") (Some "NeurIPS") (Some (Count 98234)).

Definition test_paper_2 : paper_info :=
  mk_paper_info
    (Some "BERT: Pre-training of Deep Bidirectional Transformers for Language Understanding")
    (Some ["Jacob Devlin"; "Ming-Wei Chang"; "Kenton Lee"; "Kristina Toutanova"])
    (Some "2019") (Some "NAACL") (Some (Count 67890)).

Definition test_paper_3 : paper_info :=
  mk_paper_info
    (Some "Learning Transferable Visual Models From Natural Language Supervision")
    (Some ["Alec Radford"; "Jong Wook Kim"; "Chris Hallacy"; "Aditya Ramesh";
           "Gabriel Goh"; "Sandhini Agarwal"; "Girish Sastry"; "Amanda Askell"])
    (Some "2021") (Some "ICML") (Some (Count 15678)).

(** [test_papers.get(test_id)] *)
Definition get_test_paper_info (test_id : string) : option paper_info :=
  if String.eqb test_id "1" then Some test_paper_1
  else if String.eqb test_id "2" then Some test_paper_2
  else if String.eqb test_id "3" then Some test_paper_3
  else None.

(** ** Identifier classifier

    The fragment of [re] that the four patterns of [parse_url] use:
    literal text, alternation, concatenation, a greedy optional group and a
    greedy [+] over a character class.  [rmatch] is the backtracking
    matcher in continuation-passing style: alternatives are tried left to
    right, greedy operators try the longest match first, and the first
    path on which the continuation succeeds is the result. *)

Module Re.

Inductive regex : Type :=
| Lit (s : string)
| Alt (r1 r2 : regex)
| Cat (r1 r2 : regex)
| Opt (r : regex)
| Plus (cls : ascii -> bool).

(** Strip the literal [l] from the front of [s] *)
Fixpoint strip_prefix (l s : string) : option string :=
  match l, s with
  | EmptyString, _ => Some s
  | String a l', String b s' =>
      if Ascii.eqb a b then strip_prefix l' s' else None
  | String _ _, EmptyString => None
  end.

Section Matcher.
Context {A : Type}.

(** [cls*], longest first *)
Fixpoint star (cls : ascii -> bool) (s : string) (k : string -> option A)
  : option A :=
  match s with
  | String c s' =>
      if cls c then
        match star cls s' k with
        | Some a => Some a
        | None => k s
        end
      else k s
  | EmptyString => k s
  end.

Fixpoint rmatch (r : regex) (s : string) (k : string -> option A)
  : option A :=
  match r with
  | Lit l =>
      match strip_prefix l s with
      | Some rest => k rest
      | None => None
      end
  | Alt r1 r2 =>
      match rmatch r1 s k with
      | Some a => Some a
      | None => rmatch r2 s k
      end
  | Cat r1 r2 => rmatch r1 s (fun rest => rmatch r2 rest k)
  | Opt r1 =>
      match rmatch r1 s k with
      | Some a => Some a
      | None => k s
      end
  | Plus cls =>
      match s with
      | String c s' => if cls c then star cls s' k else None
      | EmptyString => None
      end
  end.
End Matcher.

(** A pattern of the shape [before(group1)]: some text followed by the one
    capturing group, as all four patterns of [parse_url] are. *)
Record pattern : Type := mk_pattern {
  before : regex;
  group1 : regex
}.

(** The text of [s] consumed when [rest] is what is left of it *)
Definition consumed (s rest : string) : string :=
  substring 0 (String.length s - String.length rest) s.

(** [re.match(pat, s)], giving [match.group(1)] *)
Definition match_at (pat : pattern) (s : string) : option string :=
  rmatch (before pat) s (fun s1 =>
    rmatch (group1 pat) s1 (fun s2 => Some (consumed s1 s2))).

(** [re.search(pat, s)], giving [match.group(1)] of the leftmost match *)
Fixpoint search (pat : pattern) (s : string) : option string :=
  match match_at pat s with
  | Some g => Some g
  | None =>
      match s with
      | EmptyString => None
      | String _ s' => search pat s'
      end
  end.

End Re.

Import Re.

Definition in_range (lo hi c : ascii) : bool :=
  ((nat_of_ascii lo <=? nat_of_ascii c)
   && (nat_of_ascii c <=? nat_of_ascii hi))%nat.

(** [[^/]] *)
Definition not_slash (c : ascii) : bool := negb (Ascii.eqb c "/").
(** [[a-f0-9]] *)
Definition hex_char (c : ascii) : bool :=
  in_range "a" "f" c || in_range "0" "9" c.
(** [[A-Za-z0-9_\-]] *)
Definition openreview_id_char (c : ascii) : bool :=
  in_range "A" "Z" c || in_range "a" "z" c || in_range "0" "9" c
  || Ascii.eqb c "_" || Ascii.eqb c "-".
(** [[^\s]] *)
Definition not_space (c : ascii) : bool := negb (Py.isspace c).

(** [arxiv\.org/(?:abs|pdf)/(\d+\.\d+)] *)
Definition arxiv_pattern : pattern :=
  mk_pattern
    (Cat (Lit "arxiv.org/") (Cat (Alt (Lit "abs") (Lit "pdf")) (Lit "/")))
    (Cat (Plus Py.isdigit) (Cat (Lit ".") (Plus Py.isdigit))).

(** [semanticscholar\.org/paper/(?:[^/]+/)?([a-f0-9]+)] *)
Definition ss_pattern : pattern :=
  mk_pattern
    (Cat (Lit "semanticscholar.org/paper/")
         (Opt (Cat (Plus not_slash) (Lit "/"))))
    (Plus hex_char).

(** [openreview\.net/(?:forum|pdf)\?id=([A-Za-z0-9_\-]+)] *)
Definition or_pattern : pattern :=
  mk_pattern
    (Cat (Lit "openreview.net/") (Cat (Alt (Lit "forum") (Lit "pdf")) (Lit "?id=")))
    (Plus openreview_id_char).

(** [doi\.org/(10\.\d+/[^\s]+)] *)
Definition doi_pattern : pattern :=
  mk_pattern
    (Lit "doi.org/")
    (Cat (Lit "10.") (Cat (Plus Py.isdigit) (Cat (Lit "/") (Plus not_space)))).

(** [parse_url] returns a pair [(source, paper_id)], which is either a tag
    with the text of group 1 or [(None, None)]: here [Some (source,
    paper_id)] or [None]. *)
Definition parse_url (url : string) : option (string * string) :=
  match search arxiv_pattern url with
  | Some g => Some ("arxiv", g)
  | None =>
  match search ss_pattern url with
  | Some g => Some ("semantic_scholar", g)
  | None =>
  match search or_pattern url with
  | Some g => Some ("openreview", g)
  | None =>
  match search doi_pattern url with
  | Some g => Some ("doi", g)
  | None => None
  end end end end.

(** ** The network and the effects of [main]

    Each network-facing function of the source is one logged call.  The
    functions catch their own exceptions and return [None] (adapters) or
    ['N/A'] (citation look-ups), so a failing source is one that answers
    [None] or [NA].  What they write to the error stream is not modelled. *)

Inductive ss_query : Type :=
| PaperId (paper_id : string)       (* [graph/v1/paper/{paper_id}] *)
| TitleSearch (title : string).     (* [graph/v1/paper/search] *)

Inductive call : Type :=
| FetchArxivInfo (arxiv_id : string)
| GetSemanticScholarInfo (paper_id : string)
| FetchOpenreviewInfo (paper_id : string)
| SearchGoogleScholar (title : string)
| CitationsGoogleScholar (title : string)
| CitationsSemanticScholar (q : ss_query).

(** The answers of the outside world; the first argument is the log of the
    calls made before this one. *)
Record network : Type := mk_network {
  net_fetch_arxiv_info : list call -> string -> option paper_info;
  net_get_semantic_scholar_info : list call -> string -> option paper_info;
  net_fetch_openreview_info : list call -> string -> option paper_info;
  net_search_google_scholar : list call -> string -> option paper_info;
  net_citations_google_scholar : list call -> string -> citations;
  net_citations_semantic_scholar : list call -> ss_query -> citations
}.

Record state : Type := mk_state {
  calls : list call;          (* oldest first *)
  stdout : list string;       (* lines printed *)
  stderr : list string        (* diagnostics of [main] itself *)
}.

Definition initial_state : state := mk_state [] [] [].

(** State and exceptions *)
Definition M (A : Type) : Type := state -> result A * state.

Definition ret {A : Type} (a : A) : M A := fun st => (Ok a, st).

Definition bind {A B : Type} (m : M A) (f : A -> M B) : M B :=
  fun st =>
    match m st with
    | (Ok a, st') => f a st'
    | (Raise e, st') => (Raise e, st')
    end.

Definition raise {A : Type} (e : exn) : M A := fun st => (Raise e, st).

Definition lift {A : Type} (r : result A) : M A := fun st => (r, st).

Declare Scope py_scope.
Delimit Scope py_scope with py.
Notation "x <- m ;; k" := (bind m (fun x => k))
  (at level 61, m at next level, right associativity) : py_scope.
Notation "m ;;; k" := (bind m (fun _ => k))
  (at level 61, right associativity) : py_scope.
Open Scope py_scope.

(** [print(line)] and [print(line, file=sys.stderr)] *)
Definition print (line : string) : M unit :=
  fun st => (Ok tt, mk_state (calls st) (stdout st ++ [line]) (stderr st)).
Definition eprint (line : string) : M unit :=
  fun st => (Ok tt, mk_state (calls st) (stdout st) (stderr st ++ [line])).

Definition sys_exit {A : Type} (code : Z) : M A := raise (SystemExit code).

(** The parsed command line.  [debug] only switches on diagnostics of
    [search_google_scholar] on the error stream. *)
Record args : Type := mk_args {
  url : string;
  max_authors : Z;
  test : bool;
  google_scholar : bool;
  use_google_scholar_citations : bool;
  debug : bool
}.

Section Program.
Variable net : network.

Definition query {A : Type} (c : call) (answer : list call -> A) : M A :=
  fun st =>
    (Ok (answer (calls st)),
     mk_state (calls st ++ [c]) (stdout st) (stderr st)).

Definition fetch_arxiv_info (arxiv_id : string) : M (option paper_info) :=
  query (FetchArxivInfo arxiv_id)
        (fun log => net_fetch_arxiv_info net log arxiv_id).

Definition get_semantic_scholar_info (paper_id : string)
  : M (option paper_info) :=
  query (GetSemanticScholarInfo paper_id)
        (fun log => net_get_semantic_scholar_info net log paper_id).

Definition fetch_openreview_info (paper_id : string)
  : M (option paper_info) :=
  query (FetchOpenreviewInfo paper_id)
        (fun log => net_fetch_openreview_info net log paper_id).

Definition search_google_scholar (title : string) : M (option paper_info) :=
  query (SearchGoogleScholar title)
        (fun log => net_search_google_scholar net log title).

Definition get_citations_from_google_scholar (title : string) : M citations :=
  query (CitationsGoogleScholar title)
        (fun log => net_citations_google_scholar net log title).

(** A [str] argument that is given and not empty, as [if arxiv_id:]
    tests it *)
Definition given (s : option string) : option string :=
  match s with
  | Some s => if Py.is_empty s then None else Some s
  | None => None
  end.

(** The three keyword arguments default to [None]; with none of them
    given the function answers ['N/A'] without a call. *)
Definition get_citations_from_semantic_scholar
           (arxiv_id doi title : option string) : M citations :=
  let ask q :=
    query (CitationsSemanticScholar q)
          (fun log => net_citations_semantic_scholar net log q) in
  match given arxiv_id with
  | Some a => ask (PaperId ("arXiv:" ++ a))
  | None =>
      match given doi with
      | Some d => ask (PaperId ("DOI:" ++ d))
      | None =>
          match given title with
          | Some t => ask (TitleSearch t)
          | None => ret NA
          end
      end
  end.

(** [paper_info.get('citations') == 'N/A'] *)
Definition citations_is_na (d : paper_info) : bool :=
  match cites d with
  | Some c => citations_eqb c NA
  | None => false
  end.

(** [paper_info.get('title')] as a condition *)
Definition has_title (d : paper_info) : bool :=
  match title d with
  | Some t => negb (Py.is_empty t)
  | None => false
  end.

(** [if citations != 'N/A': paper_info['citations'] = citations] *)
Definition update_citations (d : paper_info) (c : citations) : paper_info :=
  if negb (citations_eqb c NA) then set_citations d c else d.

(** The [source == 'arxiv'] branch of [main] *)
Definition resolve_arxiv (use_gs_citations : bool)
           (paper_id : string) : M (option paper_info) :=
  paper_info <- fetch_arxiv_info paper_id ;;
  match paper_info with
  | Some d =>
      if dict_truthy d && citations_is_na d then
        if use_gs_citations then
          t <- lift (getitem "title" (title d)) ;;
          citations <- get_citations_from_google_scholar t ;;
          if negb (citations_eqb citations NA)
          then ret (Some (set_citations d citations))
          else
            citations <- get_citations_from_semantic_scholar
                           (Some paper_id) None None ;;
            ret (Some (update_citations d citations))
        else
          citations <- get_citations_from_semantic_scholar
                         (Some paper_id) None None ;;
          if negb (citations_eqb citations NA)
          then ret (Some (set_citations d citations))
          else
            t <- lift (getitem "title" (title d)) ;;
            citations <- get_citations_from_google_scholar t ;;
            ret (Some (update_citations d citations))
      else ret paper_info
  | None => ret paper_info
  end.

(** The [source == 'semantic_scholar'] and [source == 'doi'] branches,
    which differ in the identifier passed to the adapter *)
Definition resolve_semantic_scholar (use_gs_citations : bool)
           (paper_id : string) : M (option paper_info) :=
  paper_info <- get_semantic_scholar_info paper_id ;;
  match paper_info with
  | Some d =>
      if dict_truthy d && use_gs_citations && has_title d then
        t <- lift (getitem "title" (title d)) ;;
        gs_citations <- get_citations_from_google_scholar t ;;
        ret (Some (update_citations d gs_citations))
      else ret paper_info
  | None => ret paper_info
  end.

(** The [source == 'openreview'] branch *)
Definition resolve_openreview (use_gs_citations : bool)
           (paper_id : string) : M (option paper_info) :=
  paper_info <- fetch_openreview_info paper_id ;;
  match paper_info with
  | Some d =>
      if dict_truthy d && has_title d then
        if use_gs_citations || citations_is_na d then
          t <- lift (getitem "title" (title d)) ;;
          gs_citations <- get_citations_from_google_scholar t ;;
          ret (Some (update_citations d gs_citations))
        else ret paper_info
      else ret paper_info
  | None => ret paper_info
  end.

(** The [if source == ... elif ...] chain of [main]; [paper_info] starts
    as [None] and stays so for a tag that is none of the four. *)
Definition resolve (use_gs_citations : bool)
           (source paper_id : string) : M (option paper_info) :=
  if String.eqb source "arxiv" then
    resolve_arxiv use_gs_citations paper_id
  else if String.eqb source "semantic_scholar" then
    resolve_semantic_scholar use_gs_citations paper_id
  else if String.eqb source "openreview" then
    resolve_openreview use_gs_citations paper_id
  else if String.eqb source "doi" then
    resolve_semantic_scholar use_gs_citations ("DOI:" ++ paper_id)
  else ret None.

(** [output = format_output(...); print(output)] *)
Definition print_output (paper_info : option paper_info) (a : args) : M unit :=
  output <- lift (format_output paper_info (max_authors a)) ;;
  print output.

Definition main (a : args) : M unit :=
  if test a then
    let paper_info := get_test_paper_info (url a) in
    if negb (truthy paper_info) then
      eprint ("Error: Test ID '" ++ url a ++ "' not found. Available: 1, 2, 3") ;;;
      eprint (String "010" "Test papers:") ;;;
      eprint "  1: Attention Is All You Need" ;;;
      eprint "  2: BERT" ;;;
      eprint "  3: CLIP" ;;;
      sys_exit 1
    else print_output paper_info a
  else if google_scholar a then
    paper_info <- search_google_scholar (url a) ;;
    if negb (truthy paper_info) then
      eprint "Error: Could not find paper on Google Scholar" ;;;
      sys_exit 1
    else print_output paper_info a
  else
    match parse_url (url a) with
    | None =>
        eprint ("Error: Unsupported URL format: " ++ url a) ;;;
        eprint "Supported sources: arXiv, Semantic Scholar, OpenReview" ;;;
        eprint "Or use --google-scholar flag to search by title" ;;;
        sys_exit 1
    | Some (source, paper_id) =>
        paper_info <- resolve (use_google_scholar_citations a)
                              source paper_id ;;
        if negb (truthy paper_info) then
          eprint ("Error: Could not fetch paper information from " ++ source) ;;;
          sys_exit 1
        else print_output paper_info a
    end.

(** One run of the program from the initial state *)
Definition run (a : args) : result unit * state := main a initial_state.

(** What the adapter of [source] answers when it is the first call *)
Definition adapter_record (source paper_id : string) : option paper_info :=
  if String.eqb source "arxiv" then net_fetch_arxiv_info net [] paper_id
  else if String.eqb source "semantic_scholar" then
    net_get_semantic_scholar_info net [] paper_id
  else if String.eqb source "openreview" then
    net_fetch_openreview_info net [] paper_id
  else if String.eqb source "doi" then
    net_get_semantic_scholar_info net [] ("DOI:" ++ paper_id)
  else None.

(** The record a run starts from: the test table, the title search, or
    the adapter of the classified source *)
Definition first_record (a : args) : option paper_info :=
  if test a then get_test_paper_info (url a)
  else if google_scholar a then net_search_google_scholar net [] (url a)
  else match parse_url (url a) with
       | Some (source, paper_id) => adapter_record source paper_id
       | None => None
       end.
End Program.

(** The calls of the citation enrichment chain *)
Definition is_enrichment_call (c : call) : bool :=
  match c with
  | CitationsGoogleScholar _ | CitationsSemanticScholar _ => true
  | _ => false
  end.

(** The first and the second citation source of the [arxiv] branch under
    each order, as calls *)
Definition google_call (t : string) : call := CitationsGoogleScholar t.
Definition semantic_call (paper_id : string) : call :=
  CitationsSemanticScholar (PaperId ("arXiv:" ++ paper_id)).

Definition first_source_call (use_gs_citations : bool) (paper_id t : string)
  : call :=
  if use_gs_citations then google_call t else semantic_call paper_id.
Definition second_source_call (use_gs_citations : bool) (paper_id t : string)
  : call :=
  if use_gs_citations then semantic_call paper_id else google_call t.

(** The answer of the network to a citation call after the calls [log] *)
Definition citation_answer (net : network) (log : list call) (c : call)
  : citations :=
  match c with
  | CitationsGoogleScholar t => net_citations_google_scholar net log t
  | CitationsSemanticScholar q => net_citations_semantic_scholar net log q
  | _ => NA
  end.

(** All five keys present *)
Definition canonical (d : paper_info) : Prop :=
  title d <> None /\ authors d <> None /\ year d <> None
  /\ venue d <> None /\ cites d <> None.

(** The line [format_output] builds from the five values *)
Definition citation_line (t : string) (l : list string) (y v : string)
           (c : citations) (max_authors : Z) : string :=
  "**" ++ t ++ "** " ++ format_authors l max_authors ++ ". " ++ y ++ ". "
    ++ v ++ ". Citations: " ++ citations_str c.

(** ** Source patterns, declaratively *)

(** Every character of [s] is in the class *)
Fixpoint all_in (cls : ascii -> bool) (s : string) : bool :=
  match s with
  | EmptyString => true
  | String c s' => cls c && all_in cls s'
  end.

(** The language of a [regex] *)
Inductive lang : regex -> string -> Prop :=
| lang_lit l : lang (Lit l) l
| lang_alt_l r1 r2 s : lang r1 s -> lang (Alt r1 r2) s
| lang_alt_r r1 r2 s : lang r2 s -> lang (Alt r1 r2) s
| lang_cat r1 r2 s1 s2 : lang r1 s1 -> lang r2 s2 -> lang (Cat r1 r2) (s1 ++ s2)
| lang_opt_skip r : lang (Opt r) ""
| lang_opt_take r s : lang r s -> lang (Opt r) s
| lang_plus cls c s :
    cls c = true -> all_in cls s = true -> lang (Plus cls) (String c s).

(** [url] contains a piece of the shape of [pat]: the pattern matches the
    URL in the sense of [re.search] *)
Definition url_matches (pat : pattern) (url : string) : Prop :=
  exists skipped pre g rest,
    url = skipped ++ pre ++ g ++ rest
    /\ lang (before pat) pre /\ lang (group1 pat) g.

(** [re.search(pat, url)] as a condition *)
Definition found (pat : pattern) (url : string) : bool :=
  match search pat url with
  | Some _ => true
  | None => false
  end.

(** The four matchers in the order [parse_url] tries them *)
Definition source_patterns : list (string * pattern) :=
  [("arxiv", arxiv_pattern); ("semantic_scholar", ss_pattern);
   ("openreview", or_pattern); ("doi", doi_pattern)].

(** The tag [parse_url] returns *)
Definition classify (url : string) : option string :=
  option_map fst (parse_url url).

(** The claim that a run never replaces a concrete count: whenever the
    record a run starts from carries an integer under ['citations'], the
    run makes no enrichment call. *)
Definition concrete_count_never_replaced : Prop :=
  forall (net : network) (a : args) (d : paper_info) (n : Z),
    first_record net a = Some d -> cites d = Some (Count n) ->
    existsb is_enrichment_call (calls (snd (run net a))) = false.

(** ** Record normalizer *)

(** A field with its sentinel in place of an absent value *)
Definition fill {A : Type} (field : option A) (sentinel : A) : option A :=
  match field with
  | Some v => Some v
  | None => Some sentinel
  end.

(** Modelled from the spec: the record normalizer [normalize] of section
    4.4, which [fetch_paper_info.py] does not have as a function of its
    own.  It fills every absent field with its sentinel and checks
    nothing else: ["N/A"] for the year and the citations, ["Unknown"] for
    the venue, and the empty author list, which the formatter renders as
    ["Unknown Authors"].  The specification names no sentinel for the
    title; ["Unknown"] is the default the adapters of the source use for
    it. *)
Definition normalize (d : paper_info) : paper_info :=
  mk_paper_info
    (fill (title d) "Unknown")
    (fill (authors d) [])
    (fill (year d) "N/A")
    (fill (venue d) "Unknown")
    (fill (cites d) NA).

(** ** Sample networks and command lines *)

(** A network that gives the same answers whatever it is asked: every
    adapter answers [info], Google Scholar counts [gs] citations and
    Semantic Scholar [ss]. *)
Definition constant_network (info : option paper_info) (gs ss : citations)
  : network :=
  mk_network (fun _ _ => info) (fun _ _ => info) (fun _ _ => info)
             (fun _ _ => info) (fun _ _ => gs) (fun _ _ => ss).

Definition sample_record (c : citations) : paper_info :=
  mk_paper_info (Some "Attention Is All You Need")
                (Some ["Ashish Vaswani"; "Noam Shazeer"])
                (Some "2017") (Some "arXiv") (Some c).

Definition arxiv_url : string := "https://arxiv.org/abs/1706.03762".
Definition semantic_scholar_url : string :=
  "https://www.semanticscholar.org/paper/204e3073870fae3d05bcbc2f6a8e263d9b72e776".

Definition sample_args (link : string) (use_gs_citations : bool) : args :=
  mk_args link 3 false false use_gs_citations false.

(** ** Notions used to state further properties *)

(** [s[-1]], when there is one *)
Fixpoint last_char (s : string) : option ascii :=
  match s with
  | EmptyString => None
  | String c EmptyString => Some c
  | String _ s' => last_char s'
  end.

(** A token as [str.split()] gives them: not empty, no whitespace in it *)
Definition is_token (t : string) : bool :=
  negb (Py.is_empty t) && all_in not_space t.

(** The class of the greedy [+] a regex ends with, when it ends so *)
Fixpoint last_class (r : regex) : option (ascii -> bool) :=
  match r with
  | Plus cls => Some cls
  | Cat _ r2 => last_class r2
  | _ => None
  end.

(** Whether [s] starts with a character of the class *)
Definition starts_in (cls : ascii -> bool) (s : string) : bool :=
  match s with
  | String c _ => cls c
  | EmptyString => false
  end.

(** Two dicts that agree on every key but ['citations'] *)
Definition same_but_citations (d d' : paper_info) : Prop :=
  title d' = title d /\ authors d' = authors d
  /\ year d' = year d /\ venue d' = venue d.

(** The lines [main] writes for a link it does not recognise *)
Definition unsupported_lines (link : string) : list string :=
  ["Error: Unsupported URL format: " ++ link;
   "Supported sources: arXiv, Semantic Scholar, OpenReview";
   "Or use --google-scholar flag to search by title"].


(** ** Pieces of the adapters

    The adapters fetch a page or a JSON document and read fields out of
    it.  Fetching and HTML parsing are outside this development; the
    pieces below are the parts of the adapters that compute on the text
    they have read. *)

(** [needle in hay] *)
Fixpoint contains (needle hay : string) : bool :=
  match strip_prefix needle hay with
  | Some _ => true
  | None =>
      match hay with
      | EmptyString => false
      | String _ hay' => contains needle hay'
      end
  end.

(** [needle] occurs in [hay] *)
Definition occurs_in (needle hay : string) : Prop :=
  exists pre post : string, hay = pre ++ needle ++ post.

(** [int(s)] for [s] a run of decimal digits, as [\d+] gives it; on any
    other string [int] is not reached in the source, and [None] stands
    for its [ValueError]. *)
Definition int_of_digits (s : string) : option Z :=
  option_map Z.of_uint (NilZero.uint_of_string s).

(** [Cited by (\d+)] *)
Definition cited_by_pattern : pattern :=
  mk_pattern (Lit "Cited by ") (Plus Py.isdigit).

(** The count read off the text of a citation link, as in
    [get_citations_from_google_scholar] and both methods of
    [search_google_scholar]: [int(match.group(1))] when
    [re.search(r'Cited by (\d+)', text)] matches, ['N/A'] otherwise. *)
Definition cited_by_count (cite_text : string) : citations :=
  match search cited_by_pattern cite_text with
  | Some g =>
      match int_of_digits g with
      | Some n => Count n
      | None => NA
      end
  | None => NA
  end.

(** A match of [20\d{2}] at the start of [s] *)
Definition year20_at (s : string) : option string :=
  match strip_prefix "20" s with
  | Some (String a (String b _)) =>
      if Py.isdigit a && Py.isdigit b
      then Some ("20" ++ String a (String b ""))
      else None
  | _ => None
  end.

(** [re.search(r'20\d{2}', s)], giving [group(0)] *)
Fixpoint search_year20 (s : string) : option string :=
  match year20_at s with
  | Some y => Some y
  | None =>
      match s with
      | EmptyString => None
      | String _ s' => search_year20 s'
      end
  end.

(** The year [fetch_openreview_info] infers from the invitation *)
Definition openreview_year (invitation : string) : string :=
  match search_year20 invitation with
  | Some y => y
  | None => "N/A"
  end.

(** The venue name [fetch_openreview_info] infers from the invitation *)
Definition openreview_venue_name (invitation : string) : string :=
  if contains "ICLR" invitation then "ICLR"
  else if contains "NeurIPS" invitation then "NeurIPS"
  else if contains "ICML" invitation then "ICML"
  else "OpenReview".

(** A match of [\d{4}] at the start of [s] *)
Definition four_digits (s : string) : option string :=
  match s with
  | String a (String b (String c (String d _))) =>
      if Py.isdigit a && Py.isdigit b && Py.isdigit c && Py.isdigit d
      then Some (String a (String b (String c (String d ""))))
      else None
  | _ => None
  end.

(** [re.search(r'(\d{4})', s)], giving [group(1)] *)
Fixpoint search_four_digits (s : string) : option string :=
  match four_digits s with
  | Some y => Some y
  | None =>
      match s with
      | EmptyString => None
      | String _ s' => search_four_digits s'
      end
  end.

(** The longest run of whitespace at the start of [s], dropped: what
    [\s*] consumes when a digit has to follow *)
Fixpoint skip_spaces (s : string) : string :=
  match s with
  | String c s' => if Py.isspace c then skip_spaces s' else s
  | EmptyString => s
  end.

(** A match of [{conf}\s*(\d{4})] at the start of [s], giving [group(1)] *)
Definition conf_year_at (conf s : string) : option string :=
  match strip_prefix conf s with
  | Some rest => four_digits (skip_spaces rest)
  | None => None
  end.

(** [re.search(rf'{conf}\s*(\d{{4}})', s)], giving [group(1)] *)
Fixpoint search_conf_year (conf s : string) : option string :=
  match conf_year_at conf s with
  | Some y => Some y
  | None =>
      match s with
      | EmptyString => None
      | String _ s' => search_conf_year conf s'
      end
  end.

(** The conference names [fetch_arxiv_info_from_web] looks for, in its
    order *)
Definition conferences : list string :=
  ["NeurIPS"; "ICLR"; "ICML"; "CVPR"; "ICCV"; "ECCV"; "ACL"; "EMNLP"; "AAAI"].

(** The [for conf in ...] loop over the comment text: the year and the
    venue after it, from the year before it *)
Fixpoint detect_conference (confs : list string) (comment_text year : string)
  : string * string :=
  match confs with
  | [] => (year, "arXiv")
  | conf :: confs' =>
      if contains conf comment_text then
        (match search_conf_year conf comment_text with
         | Some y => y
         | None => year
         end, conf)
      else detect_conference confs' comment_text year
  end.

(** The year and the venue [fetch_arxiv_info_from_web] reads off the
    text of the dateline and of the comments; [None] is an element that
    the page does not have. *)
Definition arxiv_web_year_venue (dateline comments : option string)
  : string * string :=
  let year :=
    match dateline with
    | Some text =>
        match search_four_digits text with
        | Some y => y
        | None => "N/A"
        end
    | None => "N/A"
    end in
  match comments with
  | Some comment_text => detect_conference conferences comment_text year
  | None => (year, "arXiv")
  end.

(** A key of a JSON object whose value, when it has one, is [null] or a
    string *)
Inductive json_str : Type :=
| JAbsent
| JNull
| JStr (s : string).

(** The value under ['publicationVenue'] of a Semantic Scholar answer:
    the key is absent, or [null], or an object, of which only the
    ['name'] and whether it has other keys matter. *)
Inductive json_venue : Type :=
| PVAbsent
| PVNull
| PVObject (name : json_str) (other_keys : bool).

(** [d.get(key, default)]; the result [None] is Python's [None] *)
Definition get_str (v : json_str) (default : string) : option string :=
  match v with
  | JAbsent => Some default
  | JNull => None
  | JStr s => Some s
  end.

(** [not v] for [v] a string or [None] *)
Definition not_str (v : option string) : bool :=
  match v with
  | Some s => Py.is_empty s
  | None => true
  end.

(** [data.get('publicationVenue')] as a condition *)
Definition venue_object_truthy (pv : json_venue) : bool :=
  match pv with
  | PVObject JAbsent other_keys => other_keys
  | PVObject _ _ => true
  | _ => false
  end.

(** The venue [get_semantic_scholar_info] puts in its record *)
Definition semantic_scholar_venue (venue : json_str)
           (publicationVenue : json_venue) : option string :=
  let venue := get_str venue "Unknown" in
  let venue :=
    if not_str venue && venue_object_truthy publicationVenue then
      match publicationVenue with
      | PVObject name _ => get_str name "Unknown"
      | _ => venue
      end
    else venue in
  if not_str venue then Some "Unknown" else venue.

(** * Properties *)

(** ** Strings *)

Section StringFacts.

Lemma append_assoc (a b c : string) : (a ++ b) ++ c = a ++ (b ++ c).
Proof.
  induction a as [|x a IH]; simpl; [reflexivity|].
  now rewrite IH.
Qed.

Lemma length_append (a b : string) :
  String.length (a ++ b) = (String.length a + String.length b)%nat.
Proof.
  induction a as [|x a IH]; simpl; [reflexivity|].
  now rewrite IH.
Qed.

Lemma substring_prefix (a b : string) :
  substring 0 (String.length a) (a ++ b) = a.
Proof.
  induction a as [|x a IH]; simpl.
  - now destruct b.
  - now rewrite IH.
Qed.

Lemma consumed_app (a b : string) : consumed (a ++ b) b = a.
Proof.
  unfold consumed.
  rewrite length_append.
  replace (String.length a + String.length b - String.length b)%nat
    with (String.length a) by lia.
  apply substring_prefix.
Qed.

Lemma is_empty_false (s : string) : Py.is_empty s = false <-> s <> "".
Proof. destruct s; simpl; split; congruence. Qed.

Lemma append_eq_nil (a b : string) : a ++ b = "" -> a = "" /\ b = "".
Proof. destruct a; simpl; [auto | discriminate]. Qed.

(** Tokens of [split] are never empty, so [p[0]] on them is defined. *)
Lemma split_from_nonempty (s cur t : string) :
  In t (Py.split_from s cur) -> t <> "".
Proof.
  revert cur.
  induction s as [|c s IH]; intros cur; simpl.
  - destruct (Py.is_empty cur) eqn:E; simpl; [tauto|].
    intros [<-|[]]. now apply is_empty_false.
  - destruct (Py.isspace c).
    + destruct (Py.is_empty cur) eqn:E; simpl.
      * apply IH.
      * intros [<-|H]; [now apply is_empty_false | now apply IH in H].
    + apply IH.
Qed.

Lemma split_tokens_nonempty (s t : string) : In t (Py.split s) -> t <> "".
Proof. apply split_from_nonempty. Qed.

Lemma in_but_last (l : list string) (x : string) :
  In x (Py.but_last l) -> In x l.
Proof.
  unfold Py.but_last.
  induction l as [|y l IH]; simpl; [tauto|].
  destruct l as [|z l]; [simpl; tauto|].
  intros [<-|H]; [now left | right; now apply IH].
Qed.

(** Every given name that [display_name] takes an initial of has a first
    character. *)
Lemma initials_defined (author p : string) :
  In p (Py.but_last (Py.split author)) ->
  exists c : ascii, Py.first_char p = String c "".
Proof.
  intros H. apply in_but_last, split_tokens_nonempty in H.
  destruct p as [|c p]; [contradiction|].
  now exists c.
Qed.

(** A string that ends in [" et al"] has no period to strip. *)
Lemma rstrip_et_al (s : string) :
  Py.rstrip "." (s ++ " et al") = s ++ " et al".
Proof.
  induction s as [|c s IH]; [reflexivity|].
  change (String c s ++ " et al") with (String c (s ++ " et al")).
  cbn [Py.rstrip]. rewrite IH.
  destruct (s ++ " et al") eqn:E; [|reflexivity].
  apply append_eq_nil in E. destruct E as [_ E]. discriminate E.
Qed.

End StringFacts.

(** ** The matcher against the language of a pattern *)

Section MatcherFacts.

Lemma strip_prefix_app (l s : string) : strip_prefix l (l ++ s) = Some s.
Proof.
  induction l as [|a l IH]; simpl; [reflexivity|].
  now rewrite Ascii.eqb_refl.
Qed.

Lemma strip_prefix_inv (l s rest : string) :
  strip_prefix l s = Some rest -> s = l ++ rest.
Proof.
  revert s.
  induction l as [|a l IH]; intros s; simpl.
  - congruence.
  - destruct s as [|b s]; [discriminate|].
    destruct (Ascii.eqb a b) eqn:E; [|discriminate].
    apply Ascii.eqb_eq in E. subst b.
    intros H. apply IH in H. now subst s.
Qed.

Context {A : Type}.

Lemma star_sound (cls : ascii -> bool) (s : string)
      (k : string -> option A) (a : A) :
  star cls s k = Some a ->
  exists s1 s2, s = s1 ++ s2 /\ all_in cls s1 = true /\ k s2 = Some a.
Proof.
  induction s as [|c s IH]; simpl.
  - intros H. now exists "", "".
  - destruct (cls c) eqn:Ec.
    + destruct (star cls s k) as [a'|] eqn:Es.
      * intros H. inversion H; subst a'.
        destruct (IH eq_refl) as (s1 & s2 & -> & Hall & Hk).
        exists (String c s1), s2. simpl. now rewrite Ec, Hall.
      * intros H. now exists "", (String c s).
    + intros H. now exists "", (String c s).
Qed.

Lemma star_complete (cls : ascii -> bool) (s1 s2 : string)
      (k : string -> option A) :
  all_in cls s1 = true -> k s2 <> None -> star cls (s1 ++ s2) k <> None.
Proof.
  intros Hall Hk.
  induction s1 as [|c s1 IH]; simpl in *.
  - destruct s2 as [|c s2]; simpl; [exact Hk|].
    destruct (cls c); [|exact Hk].
    destruct (star cls s2 k); [discriminate | exact Hk].
  - apply andb_true_iff in Hall. destruct Hall as [Hc Hall].
    rewrite Hc.
    specialize (IH Hall).
    destruct (star cls (s1 ++ s2) k); [discriminate | contradiction].
Qed.

End MatcherFacts.

Lemma rmatch_sound {A : Type} (r : regex) :
  forall (s : string) (k : string -> option A) (a : A),
    rmatch r s k = Some a ->
    exists s1 s2, s = s1 ++ s2 /\ lang r s1 /\ k s2 = Some a.
Proof.
  induction r as [l | r1 IH1 r2 IH2 | r1 IH1 r2 IH2 | r IH | cls];
    intros s k a; simpl.
  - destruct (strip_prefix l s) as [rest|] eqn:E; [|discriminate].
    intros H. apply strip_prefix_inv in E.
    exists l, rest. repeat split; [assumption | constructor | assumption].
  - destruct (rmatch r1 s k) as [a'|] eqn:E.
    + intros H. inversion H; subst a'.
      destruct (IH1 _ _ _ E) as (s1 & s2 & -> & Hl & Hk).
      exists s1, s2. repeat split; [now apply lang_alt_l | assumption].
    + intros H.
      destruct (IH2 _ _ _ H) as (s1 & s2 & -> & Hl & Hk).
      exists s1, s2. repeat split; [now apply lang_alt_r | assumption].
  - intros H.
    destruct (IH1 _ _ _ H) as (s1 & s2 & -> & Hl1 & Hk1).
    destruct (IH2 _ _ _ Hk1) as (s3 & s4 & -> & Hl2 & Hk2).
    exists (s1 ++ s3), s4.
    repeat split; [now rewrite append_assoc | now constructor | assumption].
  - destruct (rmatch r s k) as [a'|] eqn:E.
    + intros H. inversion H; subst a'.
      destruct (IH _ _ _ E) as (s1 & s2 & -> & Hl & Hk).
      exists s1, s2. repeat split; [now apply lang_opt_take | assumption].
    + intros H. exists "", s.
      repeat split; [apply lang_opt_skip | assumption].
  - destruct s as [|c s]; [discriminate|].
    destruct (cls c) eqn:Ec; [|discriminate].
    intros H.
    destruct (star_sound _ _ _ _ H) as (s1 & s2 & -> & Hall & Hk).
    exists (String c s1), s2.
    repeat split; [now constructor | assumption].
Qed.

Lemma rmatch_complete {A : Type} (r : regex) (s1 : string) :
  lang r s1 ->
  forall (s2 : string) (k : string -> option A),
    k s2 <> None -> rmatch r (s1 ++ s2) k <> None.
Proof.
  induction 1 as [l | r1 r2 s _ IH | r1 r2 s _ IH
                  | r1 r2 s1 s3 _ IH1 _ IH2 | r | r s _ IH | cls c s Hc Hall];
    intros s2 k Hk; simpl.
  - now rewrite strip_prefix_app.
  - specialize (IH s2 k Hk).
    destruct (rmatch r1 (s ++ s2) k); [discriminate | contradiction].
  - destruct (rmatch r1 (s ++ s2) k); [discriminate | now apply IH].
  - rewrite append_assoc. apply IH1. now apply IH2.
  - destruct (rmatch r s2 k); [discriminate | exact Hk].
  - specialize (IH s2 k Hk).
    destruct (rmatch r (s ++ s2) k); [discriminate | contradiction].
  - rewrite Hc. now apply star_complete.
Qed.

Lemma match_at_sound (pat : pattern) (s g : string) :
  match_at pat s = Some g ->
  exists pre rest,
    s = pre ++ g ++ rest /\ lang (before pat) pre /\ lang (group1 pat) g.
Proof.
  unfold match_at. intros H.
  apply rmatch_sound in H. destruct H as (pre & s1 & -> & Hpre & H).
  apply rmatch_sound in H. destruct H as (grp & rest & -> & Hgrp & H).
  rewrite consumed_app in H. inversion H; subst g.
  now exists pre, rest.
Qed.

Lemma match_at_complete (pat : pattern) (pre g rest : string) :
  lang (before pat) pre -> lang (group1 pat) g ->
  match_at pat (pre ++ g ++ rest) <> None.
Proof.
  intros Hpre Hg. unfold match_at.
  apply rmatch_complete; [assumption|].
  apply rmatch_complete; [assumption | discriminate].
Qed.

Lemma search_sound (pat : pattern) (s g : string) :
  search pat s = Some g ->
  exists skipped pre rest,
    s = skipped ++ pre ++ g ++ rest
    /\ lang (before pat) pre /\ lang (group1 pat) g.
Proof.
  induction s as [|c s IH]; simpl.
  - destruct (match_at pat "") as [g'|] eqn:E; [|discriminate].
    intros H. inversion H; subst g'.
    destruct (match_at_sound _ _ _ E) as (pre & rest & Hs & Hl).
    now exists "", pre, rest.
  - destruct (match_at pat (String c s)) as [g'|] eqn:E.
    + intros H. inversion H; subst g'.
      destruct (match_at_sound _ _ _ E) as (pre & rest & Hs & Hl).
      now exists "", pre, rest.
    + intros H.
      destruct (IH H) as (skipped & pre & rest & -> & Hl).
      now exists (String c skipped), pre, rest.
Qed.

Lemma search_complete (pat : pattern) (skipped pre g rest : string) :
  lang (before pat) pre -> lang (group1 pat) g ->
  search pat (skipped ++ pre ++ g ++ rest) <> None.
Proof.
  intros Hpre Hg.
  pose proof (match_at_complete pat pre g rest Hpre Hg) as Hm.
  induction skipped as [|c skipped IH].
  - change ("" ++ pre ++ g ++ rest) with (pre ++ g ++ rest).
    destruct (pre ++ g ++ rest); simpl;
      destruct (match_at pat _); congruence.
  - change (String c skipped ++ pre ++ g ++ rest)
      with (String c (skipped ++ pre ++ g ++ rest)).
    cbn [search].
    destruct (match_at pat (String c (skipped ++ pre ++ g ++ rest)));
      [discriminate | exact IH].
Qed.

(** [re.search] finds a match exactly when the URL matches the pattern. *)
Lemma search_iff (pat : pattern) (url : string) :
  search pat url <> None <-> url_matches pat url.
Proof.
  split.
  - destruct (search pat url) as [g|] eqn:E; [|congruence].
    intros _. apply search_sound in E.
    destruct E as (skipped & pre & rest & Hs & Hpre & Hg).
    now exists skipped, pre, g, rest.
  - intros (skipped & pre & g & rest & -> & Hpre & Hg).
    now apply search_complete.
Qed.

(** Group 1 of a match is in the language of the group. *)
Lemma search_group (pat : pattern) (url g : string) :
  search pat url = Some g -> lang (group1 pat) g.
Proof.
  intros H. apply search_sound in H.
  now destruct H as (_ & _ & _ & _ & _ & Hg).
Qed.

Lemma lang_plus_nonempty (cls : ascii -> bool) (s : string) :
  lang (Plus cls) s -> s <> "".
Proof. inversion 1. discriminate. Qed.

(** The identifier [parse_url] extracts from an arXiv link is not empty. *)
Lemma parse_url_arxiv_id (url paper_id : string) :
  parse_url url = Some ("arxiv", paper_id) -> paper_id <> "".
Proof.
  unfold parse_url.
  destruct (search arxiv_pattern url) as [g|] eqn:E.
  - intros H. inversion H; subst g.
    apply search_group in E. simpl in E.
    inversion E as [| | | r1 r2 s1 s2 H1 H2 | | |]; subst.
    apply lang_plus_nonempty in H1.
    intros Hn. apply append_eq_nil in Hn. tauto.
  - destruct (search ss_pattern url); [discriminate|].
    destruct (search or_pattern url); [discriminate|].
    destruct (search doi_pattern url); discriminate.
Qed.

(** ** Output formatter *)

(** The first-author branch of [format_authors] builds the same display
    name as the loop of the other branch. *)
Lemma format_authors_truncated (first : string) (rest : list string)
      (max_authors : Z) :
  (Z.of_nat (List.length (first :: rest)) <=? max_authors)%Z = false ->
  format_authors (first :: rest) max_authors = display_name first ++ " et al".
Proof.
  intros H. unfold format_authors, display_name. rewrite H.
  destruct (1 <? List.length (Py.split first))%nat; [|reflexivity].
  now rewrite !append_assoc.
Qed.

(** With a negative [max_authors] the empty list is longer than
    [max_authors] and still renders as the sentinel. *)
Example format_authors_empty_negative :
  format_authors [] (-1) = "Unknown Authors".
Proof. reflexivity. Qed.

(** C1, as stated, fails: the value returned for
    ["Alec Radford"; "Jong Wook Kim"] with [max_authors = 3] is not
    ["Radford, A. and Kim, J. W."]. *)
Lemma format_authors_two_not_dotted :
  format_authors ["Alec Radford"; "Jong Wook Kim"] 3
  <> "Radford, A. and Kim, J. W.".
Proof. vm_compute. discriminate. Qed.

(** C1, amended: the two display names are ["Radford, A."] and
    ["Kim, J. W."], every initial followed by a period; they are joined
    by [" and "], and [format_authors] strips the final period of the
    result (which [format_output] puts back), returning
    ["Radford, A. and Kim, J. W"]. *)
Theorem format_authors_two :
  display_name "Alec Radford" = "Radford, A."
  /\ display_name "Jong Wook Kim" = "Kim, J. W."
  /\ format_authors ["Alec Radford"; "Jong Wook Kim"] 3
     = Py.rstrip "." (display_name "Alec Radford" ++ " and "
                        ++ display_name "Jong Wook Kim")
  /\ format_authors ["Alec Radford"; "Jong Wook Kim"] 3
     = "Radford, A. and Kim, J. W".
Proof. repeat split; reflexivity. Qed.

(** C3: when the list is longer than [max_authors], [format_authors]
    returns the display name of the first author followed by [" et al"],
    with no period at the end; for a first author ["Ashish Vaswani"] that
    is ["Vaswani, A. et al"]. *)
Theorem format_authors_et_al (first : string) (rest : list string)
        (max_authors : Z) :
  (Z.of_nat (List.length (first :: rest)) > max_authors)%Z ->
  format_authors (first :: rest) max_authors = display_name first ++ " et al"
  /\ Py.rstrip "." (format_authors (first :: rest) max_authors)
     = format_authors (first :: rest) max_authors
  /\ (first = "Ashish Vaswani" ->
      format_authors (first :: rest) max_authors = "Vaswani, A. et al").
Proof.
  intros H.
  assert (E : format_authors (first :: rest) max_authors
              = display_name first ++ " et al").
  { apply format_authors_truncated. apply Z.leb_gt. lia. }
  rewrite E. repeat split.
  - apply rstrip_et_al.
  - intros ->. reflexivity.
Qed.

(** The 8 names of test paper 1 with [max_authors = 3] *)
Lemma format_authors_et_al_witness :
  format_authors
    ["Ashish Vaswani"; "Noam Shazeer"; "Niki Parmar"; "Jakob Uszkoreit";
     "Llion Jones"; "Aidan N. Gomez"; "Lukasz Kaiser"; "Illia Polosukhin"] 3
  = "Vaswani, A. et al".
Proof.
  refine (proj2 (proj2 (format_authors_et_al "Ashish Vaswani"
    ["Noam Shazeer"; "Niki Parmar"; "Jakob Uszkoreit";
     "Llion Jones"; "Aidan N. Gomez"; "Lukasz Kaiser"; "Illia Polosukhin"]
    3 _)) eq_refl).
  reflexivity.
Defined.

(** C4: the empty author list renders as ["Unknown Authors"], whatever
    [max_authors] is. *)
Theorem format_authors_empty (max_authors : Z) :
  format_authors [] max_authors = "Unknown Authors".
Proof. reflexivity. Qed.

(** C10: for [None] and for the empty dict, the falsy values of an
    optional record, [format_output] returns the error line and raises
    nothing. *)
Theorem format_output_falsy (paper_info : option paper_info)
        (max_authors : Z) :
  truthy paper_info = false ->
  format_output paper_info max_authors
  = Ok "Error: Could not fetch paper information".
Proof.
  destruct paper_info as [d|]; simpl; [|reflexivity].
  intros ->. reflexivity.
Qed.

Lemma format_output_falsy_witness :
  format_output None 3 = Ok "Error: Could not fetch paper information"
  /\ format_output (Some empty_dict) 3
     = Ok "Error: Could not fetch paper information".
Proof.
  split.
  - apply (format_output_falsy None 3). reflexivity.
  - apply (format_output_falsy (Some empty_dict) 3). reflexivity.
Defined.

(** The falsy values are exactly [None] and the dict without keys. *)
Lemma truthy_false_iff (paper_info : option paper_info) :
  truthy paper_info = false
  <-> paper_info = None \/ paper_info = Some empty_dict.
Proof.
  split.
  - destruct paper_info as [[t l y v c]|]; [|now left].
    unfold truthy, dict_truthy; simpl.
    destruct t, l, y, v, c; try discriminate. now right.
  - intros [-> | ->]; reflexivity.
Qed.

(** A record with all five keys is formatted without an exception. *)
Lemma format_output_canonical (d : paper_info) (max_authors : Z) :
  canonical d ->
  exists t l y v c,
    d = mk_paper_info (Some t) (Some l) (Some y) (Some v) (Some c)
    /\ format_output (Some d) max_authors
       = Ok (citation_line t l y v c max_authors).
Proof.
  destruct d as [[t|] [l|] [y|] [v|] [c|]];
    unfold canonical; simpl; try tauto.
  intros _. exists t, l, y, v, c. split; reflexivity.
Qed.

(** ** Runs of [main] *)

Ltac unfold_run :=
  unfold run, main, print_output, resolve, resolve_arxiv,
    resolve_semantic_scholar, resolve_openreview,
    fetch_arxiv_info, get_semantic_scholar_info, fetch_openreview_info,
    search_google_scholar, get_citations_from_google_scholar,
    get_citations_from_semantic_scholar, query, bind, lift, ret,
    sys_exit, raise, print, eprint, initial_state.

(** C2: test paper 1 with [max_authors = 3] is formatted as the line of
    the specification, and [main] in test mode on the identifier ["1"]
    prints exactly that line, makes no call and exits normally. *)
Theorem test_paper_1_line :
  get_test_paper_info "1" = Some test_paper_1
  /\ format_output (get_test_paper_info "1") 3
     = Ok "**Attention Is All You Need** Vaswani, A. et al. 2017. NeurIPS. Citations: 98234"
  /\ forall (net : network) (gs ugs dbg : bool),
       run net (mk_args "1" 3 true gs ugs dbg)
       = (Ok tt,
          mk_state []
            ["**Attention Is All You Need** Vaswani, A. et al. 2017. NeurIPS. Citations: 98234"]
            []).
Proof. repeat split. Qed.

Lemma print_output_calls (p : option paper_info) (a : args) (st : state) :
  calls (snd (print_output p a st)) = calls st.
Proof.
  unfold print_output, bind, lift, print.
  destruct (format_output p (max_authors a)); reflexivity.
Qed.

(** [main] on a recognised link, in terms of the branch of its source *)
Lemma run_parsed (net : network) (a : args) (source paper_id : string) :
  test a = false -> google_scholar a = false ->
  parse_url (url a) = Some (source, paper_id) ->
  run net a
  = match resolve net (use_google_scholar_citations a) source paper_id
            initial_state with
    | (Ok p, st) =>
        if negb (truthy p)
        then (Raise (SystemExit 1),
              mk_state (calls st) (stdout st)
                (stderr st
                 ++ ["Error: Could not fetch paper information from " ++ source]))
        else print_output p a st
    | (Raise e, st) => (Raise e, st)
    end.
Proof.
  intros Ht Hg Hp. unfold run, main. rewrite Ht, Hg, Hp.
  unfold bind at 1.
  destruct (resolve net (use_google_scholar_citations a) source paper_id
              initial_state) as [[p|e] st]; [|reflexivity].
  destruct (truthy p); reflexivity.
Qed.

(** [main] in title-search mode *)
Lemma run_title_search (net : network) (a : args) :
  test a = false -> google_scholar a = true ->
  run net a
  = if negb (truthy (net_search_google_scholar net [] (url a)))
    then (Raise (SystemExit 1),
          mk_state [SearchGoogleScholar (url a)] []
                   ["Error: Could not find paper on Google Scholar"])
    else print_output (net_search_google_scholar net [] (url a)) a
           (mk_state [SearchGoogleScholar (url a)] [] []).
Proof.
  intros Ht Hg. unfold run, main. rewrite Ht, Hg.
  unfold search_google_scholar, query, bind at 1, initial_state. simpl.
  destruct (truthy (net_search_google_scholar net [] (url a))); reflexivity.
Qed.

(** The [arxiv] branch when the first citation source answers a value
    other than ['N/A'] *)
Lemma resolve_arxiv_first (net : network) (ugs : bool) (paper_id t : string)
      (d : paper_info) (c : citations) :
  paper_id <> "" ->
  net_fetch_arxiv_info net [] paper_id = Some d ->
  cites d = Some NA -> title d = Some t ->
  citation_answer net [FetchArxivInfo paper_id]
                  (first_source_call ugs paper_id t) = c ->
  c <> NA ->
  resolve_arxiv net ugs paper_id initial_state
  = (Ok (Some (set_citations d c)),
     mk_state [FetchArxivInfo paper_id; first_source_call ugs paper_id t]
              [] []).
Proof.
  intros Hid Hd Hc Ht Hans Hna.
  unfold_run. simpl. rewrite Hd.
  assert (Htr : dict_truthy d = true).
  { unfold dict_truthy. rewrite Hc. now destruct (title d), (authors d), (year d), (venue d). }
  unfold citations_is_na. rewrite Htr, Hc. simpl.
  rewrite (proj2 (is_empty_false paper_id) Hid).
  unfold first_source_call, google_call, semantic_call in *.
  destruct ugs; simpl in *.
  - rewrite Ht. simpl. rewrite Hans.
    destruct c; simpl; [reflexivity | contradiction | reflexivity].
  - rewrite Hans.
    destruct c; simpl; [reflexivity | contradiction | reflexivity].
Qed.

(** The [arxiv] branch when both citation sources answer ['N/A'] *)
Lemma resolve_arxiv_exhausted (net : network) (ugs : bool)
      (paper_id t : string) (d : paper_info) :
  paper_id <> "" ->
  net_fetch_arxiv_info net [] paper_id = Some d ->
  cites d = Some NA -> title d = Some t ->
  citation_answer net [FetchArxivInfo paper_id]
                  (first_source_call ugs paper_id t) = NA ->
  citation_answer net
    [FetchArxivInfo paper_id; first_source_call ugs paper_id t]
    (second_source_call ugs paper_id t) = NA ->
  resolve_arxiv net ugs paper_id initial_state
  = (Ok (Some d),
     mk_state [FetchArxivInfo paper_id; first_source_call ugs paper_id t;
               second_source_call ugs paper_id t] [] []).
Proof.
  intros Hid Hd Hc Ht H1 H2.
  unfold_run. simpl. rewrite Hd.
  assert (Htr : dict_truthy d = true).
  { unfold dict_truthy. rewrite Hc. now destruct (title d), (authors d), (year d), (venue d). }
  unfold citations_is_na. rewrite Htr, Hc. simpl.
  rewrite (proj2 (is_empty_false paper_id) Hid).
  unfold first_source_call, second_source_call, google_call, semantic_call in *.
  destruct ugs; simpl in *.
  - rewrite Ht. simpl. rewrite H1. simpl. rewrite H2. reflexivity.
  - rewrite H1. simpl. rewrite Ht. simpl. rewrite H2. reflexivity.
Qed.

Lemma truthy_set_citations (d : paper_info) (c : citations) :
  truthy (Some (set_citations d c)) = true.
Proof.
  unfold truthy, dict_truthy, set_citations. simpl.
  now destruct (title d), (authors d), (year d), (venue d).
Qed.

(** C6: on the [arxiv] path, with a record whose citations are ['N/A']
    and the first citation source of the chosen order answering the
    integer [n], the record that is printed has citations [n], the log
    holds the adapter call and the call of the first source only, and a
    network that differs in the second source gives the same run. *)
Theorem enrichment_short_circuits (net : network) (a : args)
        (paper_id t : string) (d : paper_info) (n : Z) :
  test a = false -> google_scholar a = false ->
  parse_url (url a) = Some ("arxiv", paper_id) ->
  net_fetch_arxiv_info net [] paper_id = Some d ->
  cites d = Some NA -> title d = Some t ->
  citation_answer net [FetchArxivInfo paper_id]
    (first_source_call (use_google_scholar_citations a) paper_id t)
  = Count n ->
  run net a
  = print_output (Some (set_citations d (Count n))) a
      (mk_state
         [FetchArxivInfo paper_id;
          first_source_call (use_google_scholar_citations a) paper_id t]
         [] [])
  /\ calls (snd (run net a))
     = [FetchArxivInfo paper_id;
        first_source_call (use_google_scholar_citations a) paper_id t]
  /\ forall net' : network,
       net_fetch_arxiv_info net' [] paper_id = Some d ->
       citation_answer net' [FetchArxivInfo paper_id]
         (first_source_call (use_google_scholar_citations a) paper_id t)
       = Count n ->
       run net' a = run net a.
Proof.
  intros Ht Hg Hp Hd Hc Htitle Hans.
  pose proof (parse_url_arxiv_id _ _ Hp) as Hid.
  assert (Hrun : forall net0 : network,
             net_fetch_arxiv_info net0 [] paper_id = Some d ->
             citation_answer net0 [FetchArxivInfo paper_id]
               (first_source_call (use_google_scholar_citations a) paper_id t)
             = Count n ->
             run net0 a
             = print_output (Some (set_citations d (Count n))) a
                 (mk_state
                    [FetchArxivInfo paper_id;
                     first_source_call (use_google_scholar_citations a)
                                       paper_id t] [] [])).
  { intros net0 Hd0 Hans0.
    rewrite (run_parsed net0 a "arxiv" paper_id Ht Hg Hp). unfold resolve. simpl.
    rewrite (resolve_arxiv_first net0 _ paper_id t d (Count n)
               Hid Hd0 Hc Htitle Hans0) by discriminate.
    now rewrite truthy_set_citations. }
  split; [now apply Hrun|].
  split.
  - rewrite (Hrun net Hd Hans). apply print_output_calls.
  - intros net' Hd' Hans'.
    now rewrite (Hrun net' Hd' Hans'), (Hrun net Hd Hans).
Qed.

Lemma enrichment_short_circuits_witness :
  run (constant_network (Some (sample_record NA)) (Count 7) (Count 42))
      (sample_args arxiv_url false)
  = (Ok tt,
     mk_state
       [FetchArxivInfo "1706.03762";
        CitationsSemanticScholar (PaperId "arXiv:1706.03762")]
       ["**Attention Is All You Need** Vaswani, A. and Shazeer, N. 2017. arXiv. Citations: 42"]
       []).
Proof.
  exact (proj1 (enrichment_short_circuits
                  (constant_network (Some (sample_record NA)) (Count 7) (Count 42))
                  (sample_args arxiv_url false)
                  "1706.03762" "Attention Is All You Need"
                  (sample_record NA) 42
                  eq_refl eq_refl eq_refl eq_refl eq_refl eq_refl eq_refl)).
Defined.

(** C7, as stated, fails: on a Semantic Scholar link with
    [--use-google-scholar-citations], the adapter's record carries the
    count 10, Google Scholar is queried all the same, and the line that
    is printed carries its answer, 20. *)
Lemma concrete_count_replaced :
  first_record (constant_network (Some (sample_record (Count 10))) (Count 20) NA)
               (sample_args semantic_scholar_url true)
  = Some (sample_record (Count 10))
  /\ run (constant_network (Some (sample_record (Count 10))) (Count 20) NA)
         (sample_args semantic_scholar_url true)
     = (Ok tt,
        mk_state
          [GetSemanticScholarInfo "204e3073870fae3d05bcbc2f6a8e263d9b72e776";
           CitationsGoogleScholar "Attention Is All You Need"]
          ["**Attention Is All You Need** Vaswani, A. and Shazeer, N. 2017. arXiv. Citations: 20"]
          [])
  /\ ~ concrete_count_never_replaced.
Proof.
  split; [reflexivity|].
  split; [reflexivity|].
  intros H.
  specialize (H (constant_network (Some (sample_record (Count 10))) (Count 20) NA)
                (sample_args semantic_scholar_url true)
                (sample_record (Count 10)) 10%Z eq_refl eq_refl).
  vm_compute in H. discriminate H.
Qed.


(** Without the flag, or on the [arxiv] path, a record whose citations
    are not ['N/A'] leaves its branch as the adapter gave it, after the
    adapter call alone. *)
Lemma resolve_unenriched (net : network) (ugs : bool)
      (source paper_id : string) (d : paper_info) :
  adapter_record net source paper_id = Some d ->
  ugs = false \/ source = "arxiv" ->
  citations_is_na d = false ->
  exists c : call,
    is_enrichment_call c = false
    /\ resolve net ugs source paper_id initial_state
       = (Ok (Some d), mk_state [c] [] []).
Proof.
  unfold adapter_record, resolve.
  destruct (String.eqb source "arxiv") eqn:E1.
  { intros Hd _ Hna. exists (FetchArxivInfo paper_id). split; [reflexivity|].
    unfold_run. simpl. rewrite Hd, Hna, andb_false_r. reflexivity. }
  apply String.eqb_neq in E1.
  intros Hd [-> | ->]; [|contradiction]. intros Hna.
  destruct (String.eqb source "semantic_scholar").
  { exists (GetSemanticScholarInfo paper_id). split; [reflexivity|].
    unfold_run. simpl. rewrite Hd, andb_false_r. reflexivity. }
  destruct (String.eqb source "openreview").
  { exists (FetchOpenreviewInfo paper_id). split; [reflexivity|].
    unfold_run. simpl. rewrite Hd, Hna.
    destruct (dict_truthy d && has_title d); reflexivity. }
  destruct (String.eqb source "doi"); [|discriminate].
  exists (GetSemanticScholarInfo ("DOI:" ++ paper_id)). split; [reflexivity|].
  unfold_run. simpl. simpl in Hd. rewrite Hd, andb_false_r. reflexivity.
Qed.

(** C7, amended: in test mode, in title-search mode, on the [arxiv] path,
    and on every path when [--use-google-scholar-citations] is not given,
    a record whose citations are not ['N/A'] causes no enrichment call,
    and the record that is printed is the adapter's own. *)
Theorem enrichment_guarded (net : network) (a : args) (d : paper_info) :
  use_google_scholar_citations a = false \/ test a = true
  \/ google_scholar a = true \/ classify (url a) = Some "arxiv" ->
  first_record net a = Some d ->
  citations_is_na d = false ->
  existsb is_enrichment_call (calls (snd (run net a))) = false
  /\ (dict_truthy d = true ->
      exists log : list call,
        run net a = print_output (Some d) a (mk_state log [] [])).
Proof.
  intros Hflag Hd Hna. unfold first_record in Hd.
  destruct (test a) eqn:Ht.
  { unfold run, main. rewrite Ht, Hd. cbn [truthy].
    destruct (dict_truthy d) eqn:Htr; cbn [negb].
    - split; [now rewrite print_output_calls|].
      intros _. now exists [].
    - split; [reflexivity | discriminate]. }
  destruct (google_scholar a) eqn:Hg.
  { rewrite (run_title_search net a Ht Hg), Hd. cbn [truthy].
    destruct (dict_truthy d) eqn:Htr; cbn [negb].
    - split; [now rewrite print_output_calls|].
      intros _. eexists. reflexivity.
    - split; [reflexivity | discriminate]. }
  destruct (parse_url (url a)) as [[source paper_id]|] eqn:Hp; [|discriminate].
  assert (Hsrc : use_google_scholar_citations a = false \/ source = "arxiv").
  { destruct Hflag as [H | [H | [H | H]]]; try discriminate; [now left|].
    unfold classify in H. rewrite Hp in H. simpl in H. inversion H. now right. }
  destruct (resolve_unenriched net _ source paper_id d Hd Hsrc Hna)
    as (c & Hc & Hres).
  rewrite (run_parsed net a source paper_id Ht Hg Hp), Hres. cbn [truthy].
  destruct (dict_truthy d) eqn:Htr; cbn [negb].
  - split.
    + rewrite print_output_calls. cbn. now rewrite Hc.
    + intros _. now exists [c].
  - split; [cbn; now rewrite Hc | discriminate].
Qed.

Lemma enrichment_guarded_witness :
  existsb is_enrichment_call
    (calls (snd (run (constant_network (Some (sample_record (Count 10)))
                                       (Count 20) (Count 30))
                     (sample_args semantic_scholar_url false))))
  = false.
Proof.
  exact (proj1 (enrichment_guarded
                  (constant_network (Some (sample_record (Count 10)))
                                    (Count 20) (Count 30))
                  (sample_args semantic_scholar_url false)
                  (sample_record (Count 10))
                  (or_introl eq_refl) eq_refl eq_refl)).
Defined.


(** Printing a record that has all five keys *)
Lemma print_output_canonical (d : paper_info) (a : args) (st : state) :
  canonical d ->
  exists t l y v c,
    d = mk_paper_info (Some t) (Some l) (Some y) (Some v) (Some c)
    /\ print_output (Some d) a st
       = (Ok tt,
          mk_state (calls st)
                   (stdout st ++ [citation_line t l y v c (max_authors a)])
                   (stderr st)).
Proof.
  intros Hc.
  destruct (format_output_canonical d (max_authors a) Hc)
    as (t & l & y & v & c & Hd & Hf).
  exists t, l, y, v, c. split; [assumption|].
  unfold print_output, bind, lift. rewrite Hf. reflexivity.
Qed.

Lemma canonical_set_citations (d : paper_info) (c : citations) :
  canonical d -> canonical (set_citations d c).
Proof.
  unfold canonical, set_citations. simpl.
  intuition discriminate.
Qed.

Lemma canonical_truthy (d : paper_info) : canonical d -> dict_truthy d = true.
Proof.
  unfold canonical, dict_truthy.
  destruct (title d); [reflexivity | tauto].
Qed.

Ltac split_ifs :=
  repeat match goal with
         | |- context [if ?b then _ else _] => destruct b eqn:?
         end.

(** Every branch leaves a record with all five keys as it is, up to its
    citations, and raises nothing. *)
Lemma resolve_canonical (net : network) (ugs : bool)
      (source paper_id : string) (d : paper_info) :
  adapter_record net source paper_id = Some d ->
  canonical d ->
  exists (log : list call) (c : citations),
    resolve net ugs source paper_id initial_state
    = (Ok (Some (set_citations d c)), mk_state log [] []).
Proof.
  intros Hd Hc.
  destruct d as [[t|] [l|] [y|] [v|] [c0|]];
    unfold canonical in Hc; simpl in Hc; try tauto.
  clear Hc. revert Hd. unfold adapter_record, resolve.
  destruct (String.eqb source "arxiv").
  { intros Hd. unfold_run. simpl. rewrite Hd.
    unfold citations_is_na, update_citations, set_citations. simpl.
    split_ifs; simpl; split_ifs; eexists; eexists; reflexivity. }
  destruct (String.eqb source "semantic_scholar").
  { intros Hd. unfold_run. simpl. rewrite Hd.
    unfold has_title, update_citations, set_citations. simpl.
    split_ifs; simpl; split_ifs; eexists; eexists; reflexivity. }
  destruct (String.eqb source "openreview").
  { intros Hd. unfold_run. simpl. rewrite Hd.
    unfold has_title, citations_is_na, update_citations, set_citations. simpl.
    split_ifs; simpl; split_ifs; eexists; eexists; reflexivity. }
  destruct (String.eqb source "doi"); [|discriminate].
  intros Hd. unfold_run. simpl. simpl in Hd. rewrite Hd.
  unfold has_title, update_citations, set_citations. simpl.
  split_ifs; simpl; split_ifs; eexists; eexists; reflexivity.
Qed.

(** C8: a run that starts from a record with all five keys prints one
    line and exits normally, whatever the citations and the venue are;
    and on the [arxiv] path, when the record's citations are ['N/A'] and
    both citation sources answer ['N/A'] in turn, the line that is
    printed still says ['N/A']. *)
Theorem unknown_citations_still_printed (net : network) (a : args)
        (d : paper_info) :
  first_record net a = Some d ->
  canonical d ->
  (exists (log : list call) (line : string),
      run net a = (Ok tt, mk_state log [line] []))
  /\ (forall paper_id t : string,
         test a = false -> google_scholar a = false ->
         parse_url (url a) = Some ("arxiv", paper_id) ->
         cites d = Some NA -> title d = Some t ->
         citation_answer net [FetchArxivInfo paper_id]
           (first_source_call (use_google_scholar_citations a) paper_id t)
         = NA ->
         citation_answer net
           [FetchArxivInfo paper_id;
            first_source_call (use_google_scholar_citations a) paper_id t]
           (second_source_call (use_google_scholar_citations a) paper_id t)
         = NA ->
         exists (l : list string) (y v : string),
           d = mk_paper_info (Some t) (Some l) (Some y) (Some v) (Some NA)
           /\ run net a
              = (Ok tt,
                 mk_state
                   [FetchArxivInfo paper_id;
                    first_source_call (use_google_scholar_citations a)
                                      paper_id t;
                    second_source_call (use_google_scholar_citations a)
                                       paper_id t]
                   [citation_line t l y v NA (max_authors a)]
                   [])).
Proof.
  intros Hd Hc. split.
  - unfold first_record in Hd.
    destruct (test a) eqn:Ht.
    { unfold run, main. rewrite Ht, Hd. cbn [truthy].
      rewrite (canonical_truthy d Hc). cbn [negb].
      destruct (print_output_canonical d a initial_state Hc)
        as (t & l & y & v & c & _ & ->).
      now eexists; eexists. }
    destruct (google_scholar a) eqn:Hg.
    { rewrite (run_title_search net a Ht Hg), Hd. cbn [truthy].
      rewrite (canonical_truthy d Hc). cbn [negb].
      destruct (print_output_canonical d a
                  (mk_state [SearchGoogleScholar (url a)] [] []) Hc)
        as (t & l & y & v & c & _ & ->).
      now eexists; eexists. }
    destruct (parse_url (url a)) as [[source paper_id]|] eqn:Hp;
      [|discriminate].
    destruct (resolve_canonical net (use_google_scholar_citations a)
                source paper_id d Hd Hc) as (log & c & Hres).
    rewrite (run_parsed net a source paper_id Ht Hg Hp), Hres.
    rewrite truthy_set_citations. cbn [negb].
    destruct (print_output_canonical (set_citations d c) a
                (mk_state log [] []) (canonical_set_citations d c Hc))
      as (t & l & y & v & c' & _ & ->).
    now eexists; eexists.
  - intros paper_id t Ht Hg Hp Hna Htitle H1 H2.
    unfold first_record in Hd. rewrite Ht, Hg, Hp in Hd.
    unfold adapter_record in Hd. simpl in Hd.
    pose proof (parse_url_arxiv_id _ _ Hp) as Hid.
    rewrite (run_parsed net a "arxiv" paper_id Ht Hg Hp). unfold resolve. simpl.
    rewrite (resolve_arxiv_exhausted net _ paper_id t d Hid Hd Hna Htitle H1 H2).
    cbn [truthy]. rewrite (canonical_truthy d Hc). cbn [negb].
    destruct (print_output_canonical d a
                (mk_state
                   [FetchArxivInfo paper_id;
                    first_source_call (use_google_scholar_citations a)
                                      paper_id t;
                    second_source_call (use_google_scholar_citations a)
                                       paper_id t] [] []) Hc)
      as (t' & l & y & v & c & Hrec & ->).
    subst d. simpl in Hna, Htitle.
    inversion Hna; inversion Htitle; subst.
    now exists l, y, v.
Qed.

Lemma unknown_citations_still_printed_witness :
  run (constant_network (Some (sample_record NA)) NA NA)
      (sample_args arxiv_url true)
  = (Ok tt,
     mk_state
       [FetchArxivInfo "1706.03762";
        CitationsGoogleScholar "Attention Is All You Need";
        CitationsSemanticScholar (PaperId "arXiv:1706.03762")]
       ["**Attention Is All You Need** Vaswani, A. and Shazeer, N. 2017. arXiv. Citations: N/A"]
       []).
Proof.
  destruct (proj2 (unknown_citations_still_printed
                     (constant_network (Some (sample_record NA)) NA NA)
                     (sample_args arxiv_url true)
                     (sample_record NA) eq_refl
                     ltac:(repeat split; discriminate))
                  "1706.03762" "Attention Is All You Need"
                  eq_refl eq_refl eq_refl eq_refl eq_refl eq_refl eq_refl)
    as (l & y & v & Hrec & Hrun).
  inversion Hrec; subst l y v.
  exact Hrun.
Defined.

(** ** Identifier classifier *)

Lemma found_iff (pat : pattern) (url : string) :
  found pat url = true <-> url_matches pat url.
Proof.
  unfold found. rewrite <- search_iff.
  destruct (search pat url); split; congruence.
Qed.

(** The matchers are tried in the order of [source_patterns], and the
    first one that matches decides the tag. *)
Lemma classify_first_match (url : string) :
  classify url
  = option_map fst (find (fun tp => found (snd tp) url) source_patterns).
Proof.
  unfold classify, parse_url, found. simpl.
  destruct (search arxiv_pattern url); [reflexivity|].
  destruct (search ss_pattern url); [reflexivity|].
  destruct (search or_pattern url); [reflexivity|].
  destruct (search doi_pattern url); reflexivity.
Qed.

(** C5: a URL that matches the pattern of one source and of no other is
    given the tag of that source, and no other tag; in general the tag is
    that of the first pattern, in the fixed order, that matches. *)
Theorem classify_unique_match (url tag : string) (pat : pattern) :
  In (tag, pat) source_patterns ->
  url_matches pat url ->
  (forall (tag' : string) (pat' : pattern),
      In (tag', pat') source_patterns -> url_matches pat' url -> tag' = tag) ->
  classify url = Some tag
  /\ (forall t : string, classify url = Some t -> t = tag)
  /\ classify url
     = option_map fst (find (fun tp => found (snd tp) url) source_patterns).
Proof.
  intros Hin Hm Huniq.
  assert (E : classify url = Some tag).
  { rewrite classify_first_match.
    destruct (find (fun tp => found (snd tp) url) source_patterns)
      as [[tag' pat']|] eqn:F.
    - apply find_some in F. destruct F as [Hin' Hf]. simpl in Hf.
      apply found_iff in Hf. simpl. f_equal. now apply (Huniq tag' pat').
    - exfalso.
      pose proof (find_none _ _ F (tag, pat) Hin) as Hn. simpl in Hn.
      apply found_iff in Hm. congruence. }
  repeat split.
  - exact E.
  - intros t Ht. congruence.
  - apply classify_first_match.
Qed.

Lemma not_found (pat : pattern) (url : string) :
  search pat url = None -> ~ url_matches pat url.
Proof. intros H Hm. apply search_iff in Hm. contradiction. Qed.

Lemma classify_unique_match_witness :
  classify "https://arxiv.org/abs/1706.03762" = Some "arxiv".
Proof.
  refine (proj1 (classify_unique_match
                   "https://arxiv.org/abs/1706.03762" "arxiv" arxiv_pattern
                   (or_introl eq_refl) _ _)).
  - apply search_iff. vm_compute. discriminate.
  - intros tag' pat' [H | [H | [H | [H | []]]]] Hm;
      inversion H; subst; [reflexivity | exfalso ..];
      revert Hm; apply not_found; vm_compute; reflexivity.
Defined.

(** The patterns themselves can overlap: this link holds an arXiv address
    and a DOI address, and the arXiv matcher, tried first, decides. *)
Example classify_overlap :
  found arxiv_pattern "https://arxiv.org/abs/1706.03762?via=doi.org/10.1000/x1" = true
  /\ found doi_pattern "https://arxiv.org/abs/1706.03762?via=doi.org/10.1000/x1" = true
  /\ parse_url "https://arxiv.org/abs/1706.03762?via=doi.org/10.1000/x1"
     = Some ("arxiv", "1706.03762").
Proof. repeat split; vm_compute; reflexivity. Qed.

Example parse_url_samples :
  parse_url "https://arxiv.org/pdf/2103.00020v1" = Some ("arxiv", "2103.00020")
  /\ parse_url "https://www.semanticscholar.org/paper/Attention-is-All-you-Need/204e3073870f"
     = Some ("semantic_scholar", "204e3073870f")
  /\ parse_url "https://openreview.net/forum?id=YicbFdNTTy"
     = Some ("openreview", "YicbFdNTTy")
  /\ parse_url "https://doi.org/10.1145/3292500.3330701"
     = Some ("doi", "10.1145/3292500.3330701")
  /\ parse_url "https://example.org/paper" = None.
Proof. repeat split; vm_compute; reflexivity. Qed.

(** ** Record normalizer *)

(** C9: [normalize] gives a record with all five keys; a key that was
    absent holds its sentinel and a key that was present keeps its value;
    a record that already has all five keys is returned unchanged, and so
    normalizing twice is normalizing once. *)
Theorem normalize_idempotent (d : paper_info) :
  canonical (normalize d)
  /\ (title d = None -> title (normalize d) = Some "Unknown")
  /\ (authors d = None ->
      authors (normalize d) = Some []
      /\ forall m : Z, format_authors [] m = "Unknown Authors")
  /\ (year d = None -> year (normalize d) = Some "N/A")
  /\ (venue d = None -> venue (normalize d) = Some "Unknown")
  /\ (cites d = None -> cites (normalize d) = Some NA)
  /\ (title d <> None -> title (normalize d) = title d)
  /\ (authors d <> None -> authors (normalize d) = authors d)
  /\ (year d <> None -> year (normalize d) = year d)
  /\ (venue d <> None -> venue (normalize d) = venue d)
  /\ (cites d <> None -> cites (normalize d) = cites d)
  /\ (canonical d -> normalize d = d)
  /\ normalize (normalize d) = normalize d.
Proof.
  destruct d as [[t|] [l|] [y|] [v|] [c|]];
    unfold canonical, normalize; simpl;
    repeat split; try congruence; intuition congruence.
Qed.

Lemma normalize_idempotent_witness :
  normalize test_paper_1 = test_paper_1
  /\ normalize empty_dict
     = mk_paper_info (Some "Unknown") (Some []) (Some "N/A")
                     (Some "Unknown") (Some NA).
Proof.
  split.
  - destruct (normalize_idempotent test_paper_1)
      as (_ & _ & _ & _ & _ & _ & _ & _ & _ & _ & _ & H & _).
    apply H. repeat split; discriminate.
  - reflexivity.
Defined.

(** * Further properties *)

(** ** Author formatting *)

Lemma last_char_rstrip (c : ascii) (s : string) :
  last_char (Py.rstrip c s) <> Some c.
Proof.
  induction s as [|a s IH]; simpl; [discriminate|].
  destruct (Py.rstrip c s) as [|b r] eqn:E.
  - destruct (Ascii.eqb a c) eqn:Eac; simpl; [discriminate|].
    apply Ascii.eqb_neq in Eac. congruence.
  - exact IH.
Qed.

Lemma last_char_app_cons (s : string) (c : ascii) (t : string) :
  last_char (s ++ String c t) = last_char (String c t).
Proof.
  induction s as [|a s IH]; [reflexivity|].
  change (String a s ++ String c t) with (String a (s ++ String c t)).
  cbn [last_char]. rewrite IH.
  destruct (s ++ String c t) eqn:E; [|reflexivity].
  apply append_eq_nil in E. destruct E as [_ E]. discriminate E.
Qed.

(** X1: whatever the authors and [max_authors], the string
    [format_authors] returns does not end with a period, so the period
    [format_output] puts after it is the only one there. *)
Theorem format_authors_no_final_period (l : list string) (max_authors : Z) :
  last_char (format_authors l max_authors) <> Some "."%char.
Proof.
  destruct l as [|first rest]; [vm_compute; discriminate|].
  destruct (Z.of_nat (List.length (first :: rest)) <=? max_authors)%Z eqn:E.
  - unfold format_authors. rewrite E. apply last_char_rstrip.
  - rewrite (format_authors_truncated first rest max_authors E).
    change " et al" with (String " " "et al").
    rewrite last_char_app_cons. vm_compute. discriminate.
Qed.

Lemma append_empty_r (a : string) : a ++ "" = a.
Proof.
  induction a as [|x a IH]; simpl; [reflexivity|].
  now rewrite IH.
Qed.

Lemma split_from_token (t rest cur : string) :
  all_in not_space t = true ->
  Py.split_from (t ++ rest) cur = Py.split_from rest (cur ++ t).
Proof.
  revert cur.
  induction t as [|c t IH]; intros cur H; simpl.
  - now rewrite append_empty_r.
  - simpl in H. apply andb_true_iff in H. destruct H as [Hc Ht].
    unfold not_space in Hc. apply negb_true_iff in Hc. rewrite Hc.
    rewrite (IH _ Ht). now rewrite append_assoc.
Qed.

(** [split] undoes [" ".join] on tokens. *)
Lemma split_join (toks : list string) :
  forallb is_token toks = true ->
  Py.split (Py.join " " toks) = toks.
Proof.
  unfold Py.split.
  induction toks as [|t toks IH]; [reflexivity|].
  intros H. cbn [forallb] in H. apply andb_true_iff in H.
  destruct H as [Ht Htoks].
  unfold is_token in Ht. apply andb_true_iff in Ht. destruct Ht as [Hne Hns].
  destruct t as [|c t]; [discriminate|].
  destruct toks as [|t2 toks].
  - cbn [Py.join]. rewrite <- (append_empty_r (String c t)) at 1.
    rewrite (split_from_token _ _ _ Hns). reflexivity.
  - change (Py.join " " (String c t :: t2 :: toks))
      with (String c t ++ String " " (Py.join " " (t2 :: toks))).
    rewrite (split_from_token _ _ _ Hns).
    cbn [append Py.split_from]. rewrite (IH Htoks).
    reflexivity.
Qed.

(** X2: for a name written as one or more given names and a surname, each
    a run of non-whitespace characters, separated by single spaces, the
    display name is the surname, a comma, and the first character of each
    given name followed by a period. *)
Theorem display_name_of_tokens (given_names : list string) (surname : string) :
  given_names <> [] ->
  forallb is_token (given_names ++ [surname]) = true ->
  display_name (Py.join " " (given_names ++ [surname]))
  = surname ++ ", " ++ Py.join ". " (map Py.first_char given_names) ++ ".".
Proof.
  intros Hne Htok. unfold display_name.
  rewrite (split_join _ Htok).
  unfold Py.last_item, Py.but_last.
  rewrite last_last, removelast_last.
  destruct given_names as [|g gs]; [contradiction|].
  rewrite length_app. simpl.
  replace (1 <? S (List.length gs + 1))%nat with true; [reflexivity|].
  symmetry. apply Nat.ltb_lt. lia.
Qed.

Lemma display_name_of_tokens_witness :
  display_name "Aidan N. Gomez" = "Gomez, A. N.".
Proof.
  exact (display_name_of_tokens ["Aidan"; "N."] "Gomez"
           ltac:(discriminate) eq_refl).
Defined.



(** ** Identifiers extracted by [parse_url] *)

Lemma star_greedy {A : Type} (cls : ascii -> bool) (s : string)
      (k : string -> option A) (a : A) :
  (forall x : string, k x <> None) ->
  star cls s k = Some a ->
  exists s1 s2,
    s = s1 ++ s2 /\ all_in cls s1 = true /\ k s2 = Some a
    /\ starts_in cls s2 = false.
Proof.
  intros Hk.
  induction s as [|c s IH]; simpl.
  - intros H. now exists "", "".
  - destruct (cls c) eqn:Ec.
    + destruct (star cls s k) as [a'|] eqn:Es.
      * intros H. inversion H; subst a'.
        destruct (IH eq_refl) as (s1 & s2 & -> & Hall & Hs2 & Hst).
        exists (String c s1), s2. simpl. now rewrite Ec, Hall.
      * exfalso.
        apply (star_complete cls "" s k eq_refl (Hk s)). exact Es.
    + intros H. exists "", (String c s). simpl. now rewrite Ec.
Qed.

Lemma rmatch_greedy {A : Type} (r : regex) (cls : ascii -> bool) :
  last_class r = Some cls ->
  forall (s : string) (k : string -> option A) (a : A),
    (forall x : string, k x <> None) ->
    rmatch r s k = Some a ->
    exists s1 s2,
      s = s1 ++ s2 /\ lang r s1 /\ k s2 = Some a
      /\ starts_in cls s2 = false.
Proof.
  induction r as [l | r1 IH1 r2 IH2 | r1 IH1 r2 IH2 | r IH | cls'];
    simpl; try discriminate.
  - intros Hl s k a Hk H.
    apply rmatch_sound in H. destruct H as (s1 & s' & -> & Hl1 & H).
    destruct (IH2 Hl _ _ _ Hk H) as (s2 & s3 & -> & Hl2 & Hk3 & Hst).
    exists (s1 ++ s2), s3.
    repeat split; [now rewrite append_assoc | now constructor | assumption
                   | assumption].
  - intros Hl s k a Hk. inversion Hl; subst cls'.
    destruct s as [|c s]; [discriminate|].
    destruct (cls c) eqn:Ec; [|discriminate].
    intros H.
    destruct (star_greedy _ _ _ _ Hk H) as (s1 & s2 & -> & Hall & Hs2 & Hst).
    exists (String c s1), s2.
    repeat split; [now constructor | assumption | assumption].
Qed.

(** Group 1 of the match [search] finds ends where the class its pattern
    ends with ends. *)
Lemma search_maximal (pat : pattern) (cls : ascii -> bool) (s g : string) :
  last_class (group1 pat) = Some cls ->
  search pat s = Some g ->
  exists skipped pre rest,
    s = skipped ++ pre ++ g ++ rest
    /\ lang (before pat) pre /\ lang (group1 pat) g
    /\ starts_in cls rest = false.
Proof.
  intros Hl.
  assert (Hat : forall s0 g0, match_at pat s0 = Some g0 ->
            exists pre rest,
              s0 = pre ++ g0 ++ rest
              /\ lang (before pat) pre /\ lang (group1 pat) g0
              /\ starts_in cls rest = false).
  { intros s0 g0 H. unfold match_at in H.
    apply rmatch_sound in H. destruct H as (pre & s1 & -> & Hpre & H).
    apply (rmatch_greedy _ _ Hl) in H; [|discriminate].
    destruct H as (grp & rest & -> & Hgrp & H & Hst).
    rewrite consumed_app in H. inversion H; subst g0.
    now exists pre, rest. }
  induction s as [|c s IH]; simpl.
  - destruct (match_at pat "") as [g'|] eqn:E; [|discriminate].
    intros H. inversion H; subst g'.
    destruct (Hat _ _ E) as (pre & rest & Hs & Hrest).
    now exists "", pre, rest.
  - destruct (match_at pat (String c s)) as [g'|] eqn:E.
    + intros H. inversion H; subst g'.
      destruct (Hat _ _ E) as (pre & rest & Hs & Hrest).
      now exists "", pre, rest.
    + intros H.
      destruct (IH H) as (skipped & pre & rest & -> & Hrest).
      now exists (String c skipped), pre, rest.
Qed.

(** What [parse_url] returns, by the matcher that gave it *)
Lemma parse_url_cases (url source paper_id : string) :
  parse_url url = Some (source, paper_id) ->
  exists pat : pattern,
    In (source, pat) source_patterns /\ search pat url = Some paper_id.
Proof.
  unfold parse_url, source_patterns.
  destruct (search arxiv_pattern url) eqn:E1.
  { intros H; inversion H; subst. exists arxiv_pattern. simpl. tauto. }
  destruct (search ss_pattern url) eqn:E2.
  { intros H; inversion H; subst. exists ss_pattern. simpl. tauto. }
  destruct (search or_pattern url) eqn:E3.
  { intros H; inversion H; subst. exists or_pattern. simpl. tauto. }
  destruct (search doi_pattern url) eqn:E4; [|discriminate].
  intros H; inversion H; subst. exists doi_pattern. simpl. tauto.
Qed.

(** X4: the identifier [parse_url] returns is a piece of the URL that
    comes right after a piece of the shape the pattern has before its
    group, is of the shape of the group, and is as long as it can be: the
    character after it, if any, is not one the group could go on with. *)
Theorem parse_url_id_maximal (url source paper_id : string) :
  parse_url url = Some (source, paper_id) ->
  exists (pat : pattern) (cls : ascii -> bool) (skipped pre rest : string),
    In (source, pat) source_patterns
    /\ last_class (group1 pat) = Some cls
    /\ url = skipped ++ pre ++ paper_id ++ rest
    /\ lang (before pat) pre /\ lang (group1 pat) paper_id
    /\ starts_in cls rest = false.
Proof.
  intros H. apply parse_url_cases in H. destruct H as (pat & Hin & Hs).
  assert (Hc : exists cls, last_class (group1 pat) = Some cls).
  { destruct Hin as [E | [E | [E | [E | []]]]]; inversion E; subst;
      simpl; eauto. }
  destruct Hc as (cls & Hc).
  destruct (search_maximal pat cls url paper_id Hc Hs)
    as (skipped & pre & rest & Hurl & Hpre & Hg & Hst).
  now exists pat, cls, skipped, pre, rest.
Qed.

Lemma parse_url_id_maximal_witness :
  exists (pat : pattern) (cls : ascii -> bool) (skipped pre rest : string),
    In ("arxiv", pat) source_patterns
    /\ last_class (group1 pat) = Some cls
    /\ "https://arxiv.org/abs/1706.03762v5"
       = skipped ++ pre ++ "1706.03762" ++ rest
    /\ lang (before pat) pre /\ lang (group1 pat) "1706.03762"
    /\ starts_in cls rest = false.
Proof.
  exact (parse_url_id_maximal "https://arxiv.org/abs/1706.03762v5"
                              "arxiv" "1706.03762" eq_refl).
Defined.

Lemma lang_plus_inv (cls : ascii -> bool) (s : string) :
  lang (Plus cls) s -> s <> "" /\ all_in cls s = true.
Proof.
  inversion 1; subst. split; [discriminate|].
  simpl. now apply andb_true_iff.
Qed.

Lemma lang_lit_inv (l s : string) : lang (Lit l) s -> s = l.
Proof. now inversion 1. Qed.

(** X5: the identifier of an arXiv link is two runs of digits with a
    period between them, taken from after [arxiv.org/abs/] or
    [arxiv.org/pdf/]; what follows it in the link (a version suffix, an
    extension) does not start with a digit and is left out. *)
Theorem parse_url_arxiv_shape (url paper_id : string) :
  parse_url url = Some ("arxiv", paper_id) ->
  exists skipped kind d1 d2 rest : string,
    (kind = "abs" \/ kind = "pdf")
    /\ url = skipped ++ "arxiv.org/" ++ kind ++ "/" ++ paper_id ++ rest
    /\ paper_id = d1 ++ "." ++ d2
    /\ d1 <> "" /\ all_in Py.isdigit d1 = true
    /\ d2 <> "" /\ all_in Py.isdigit d2 = true
    /\ starts_in Py.isdigit rest = false.
Proof.
  intros H. unfold parse_url in H.
  destruct (search arxiv_pattern url) as [g|] eqn:E.
  - inversion H; subst g. clear H.
    apply (search_maximal arxiv_pattern Py.isdigit) in E; [|reflexivity].
    destruct E as (skipped & pre & rest & Hurl & Hpre & Hg & Hst).
    simpl in Hpre, Hg.
    inversion Hpre as [| | | r1 r2 p1 p2 Hp1 Hp2 | | |]; subst.
    apply lang_lit_inv in Hp1. subst p1.
    inversion Hp2 as [| | | r1 r2 p3 p4 Hp3 Hp4 | | |]; subst.
    apply lang_lit_inv in Hp4. subst p4.
    inversion Hg as [| | | r1 r2 d1 g2 Hd1 Hg2 | | |]; subst.
    inversion Hg2 as [| | | r1 r2 dot d2 Hdot Hd2 | | |]; subst.
    apply lang_lit_inv in Hdot. subst dot.
    apply lang_plus_inv in Hd1. apply lang_plus_inv in Hd2.
    exists skipped, p3, d1, d2, rest.
    repeat split; try tauto.
    + inversion Hp3 as [| ? ? ? Hk | ? ? ? Hk | | | |]; subst;
        apply lang_lit_inv in Hk; tauto.
    + simpl. now rewrite !append_assoc.
  - destruct (search ss_pattern url); [discriminate|].
    destruct (search or_pattern url); [discriminate|].
    destruct (search doi_pattern url); discriminate.
Qed.

Lemma parse_url_arxiv_shape_witness :
  exists skipped kind d1 d2 rest : string,
    (kind = "abs" \/ kind = "pdf")
    /\ "https://arxiv.org/pdf/2103.00020v1.pdf"
       = skipped ++ "arxiv.org/" ++ kind ++ "/" ++ "2103.00020" ++ rest
    /\ "2103.00020" = d1 ++ "." ++ d2
    /\ d1 <> "" /\ all_in Py.isdigit d1 = true
    /\ d2 <> "" /\ all_in Py.isdigit d2 = true
    /\ starts_in Py.isdigit rest = false.
Proof.
  exact (parse_url_arxiv_shape "https://arxiv.org/pdf/2103.00020v1.pdf"
                               "2103.00020" eq_refl).
Defined.

(** X6: the identifier of a DOI link starts with [10.], a run of digits
    and a slash, has no whitespace in it, and runs up to the first
    whitespace character of the link or to its end. *)
Theorem parse_url_doi_shape (url paper_id : string) :
  parse_url url = Some ("doi", paper_id) ->
  exists skipped registrant suffix rest : string,
    url = skipped ++ "doi.org/" ++ paper_id ++ rest
    /\ paper_id = "10." ++ registrant ++ "/" ++ suffix
    /\ registrant <> "" /\ all_in Py.isdigit registrant = true
    /\ suffix <> "" /\ all_in not_space suffix = true
    /\ starts_in not_space rest = false.
Proof.
  intros H. unfold parse_url in H.
  destruct (search arxiv_pattern url); [discriminate|].
  destruct (search ss_pattern url); [discriminate|].
  destruct (search or_pattern url); [discriminate|].
  destruct (search doi_pattern url) as [g|] eqn:E; [|discriminate].
  inversion H; subst g. clear H.
  apply (search_maximal doi_pattern not_space) in E; [|reflexivity].
  destruct E as (skipped & pre & rest & Hurl & Hpre & Hg & Hst).
  simpl in Hpre, Hg.
  apply lang_lit_inv in Hpre. subst pre.
  inversion Hg as [| | | r1 r2 ten g2 Hten Hg2 | | |]; subst.
  apply lang_lit_inv in Hten. subst ten.
  inversion Hg2 as [| | | r1 r2 reg g3 Hreg Hg3 | | |]; subst.
  inversion Hg3 as [| | | r1 r2 sl suf Hsl Hsuf | | |]; subst.
  apply lang_lit_inv in Hsl. subst sl.
  apply lang_plus_inv in Hreg. apply lang_plus_inv in Hsuf.
  exists skipped, reg, suf, rest.
  repeat split; tauto.
Qed.

Lemma parse_url_doi_shape_witness :
  exists skipped registrant suffix rest : string,
    "see https://doi.org/10.1145/3292500.3330701 (KDD)"
    = skipped ++ "doi.org/" ++ "10.1145/3292500.3330701" ++ rest
    /\ "10.1145/3292500.3330701" = "10." ++ registrant ++ "/" ++ suffix
    /\ registrant <> "" /\ all_in Py.isdigit registrant = true
    /\ suffix <> "" /\ all_in not_space suffix = true
    /\ starts_in not_space rest = false.
Proof.
  exact (parse_url_doi_shape
           "see https://doi.org/10.1145/3292500.3330701 (KDD)"
           "10.1145/3292500.3330701" eq_refl).
Defined.

(** ** Failures of [main] *)

Lemma parse_url_none (url : string) :
  (forall (tag : string) (pat : pattern),
      In (tag, pat) source_patterns -> ~ url_matches pat url) ->
  parse_url url = None.
Proof.
  intros H. unfold parse_url.
  assert (Hn : forall tag pat, In (tag, pat) source_patterns ->
                               search pat url = None).
  { intros tag pat Hin.
    destruct (search pat url) eqn:E; [|reflexivity].
    exfalso. apply (H tag pat Hin). apply search_iff. congruence. }
  rewrite (Hn "arxiv" arxiv_pattern), (Hn "semantic_scholar" ss_pattern),
    (Hn "openreview" or_pattern), (Hn "doi" doi_pattern);
    simpl; tauto.
Qed.

(** X7: when the link matches none of the four patterns and neither
    [--test] nor [--google-scholar] is given, [main] exits with status 1
    after three lines on the error stream; it prints nothing and makes no
    network call. *)
Theorem unsupported_url_exits (net : network) (a : args) :
  test a = false -> google_scholar a = false ->
  (forall (tag : string) (pat : pattern),
      In (tag, pat) source_patterns -> ~ url_matches pat (url a)) ->
  run net a
  = (Raise (SystemExit 1), mk_state [] [] (unsupported_lines (url a))).
Proof.
  intros Ht Hg Hno. unfold run, main.
  rewrite Ht, Hg, (parse_url_none _ Hno). reflexivity.
Qed.

Lemma unsupported_url_exits_witness :
  run (constant_network None NA NA)
      (sample_args "https://example.org/paper.pdf" true)
  = (Raise (SystemExit 1),
     mk_state [] []
       ["Error: Unsupported URL format: https://example.org/paper.pdf";
        "Supported sources: arXiv, Semantic Scholar, OpenReview";
        "Or use --google-scholar flag to search by title"]).
Proof.
  refine (unsupported_url_exits (constant_network None NA NA)
            (sample_args "https://example.org/paper.pdf" true)
            eq_refl eq_refl _).
  intros tag pat [H | [H | [H | [H | []]]]];
    inversion H; subst; apply not_found; vm_compute; reflexivity.
Defined.



(** ** What every run keeps *)

Lemma citations_neq_na (c : citations) :
  negb (citations_eqb c NA) = true -> c <> NA.
Proof. destruct c; simpl; congruence. Qed.

Ltac finish_shape :=
  repeat split;
  try reflexivity;
  try (left; reflexivity);
  try (right; repeat eexists; simpl; lia);
  try (eexists; split; [reflexivity|]; split;
       [repeat split
       |first [left; reflexivity
              |right; eexists; split;
               [reflexivity | now apply citations_neq_na]]]).

(** The shape of what a branch of [main] leaves: nothing printed; either
    no call or the adapter call followed by at most two enrichment calls;
    and a record that is the adapter's but for its citations, which are
    the adapter's or an answer other than ['N/A'].  The only exception a
    branch can raise is the [KeyError] of a record without a title. *)
Lemma resolve_shape (net : network) (ugs : bool) (source paper_id : string)
      (r : result (option paper_info)) (st : state) :
  resolve net ugs source paper_id initial_state = (r, st) ->
  stdout st = [] /\ stderr st = []
  /\ (calls st = []
      \/ exists (c : call) (rest : list call),
           calls st = c :: rest /\ is_enrichment_call c = false
           /\ forallb is_enrichment_call rest = true
           /\ (List.length rest <= 2)%nat)
  /\ match r with
     | Ok None => adapter_record net source paper_id = None
     | Ok (Some d') =>
         exists d : paper_info,
           adapter_record net source paper_id = Some d
           /\ same_but_citations d d'
           /\ (cites d' = cites d
               \/ exists c : citations, cites d' = Some c /\ c <> NA)
     | Raise e => e = KeyError "title"
     end.
Proof.
  unfold resolve, adapter_record, same_but_citations.
  destruct (String.eqb source "arxiv").
  { unfold_run. simpl.
    destruct (net_fetch_arxiv_info net [] paper_id) as [[t l y v c]|];
      unfold citations_is_na, dict_truthy, update_citations, set_citations;
      simpl.
    - destruct t, l, y, v, c as [[| |]|], ugs; simpl;
        split_ifs; simpl; split_ifs;
        intros H; inversion H; subst; simpl; finish_shape.
    - intros H; inversion H; subst; simpl; finish_shape. }
  destruct (String.eqb source "semantic_scholar").
  { unfold_run. simpl.
    destruct (net_get_semantic_scholar_info net [] paper_id)
      as [[t l y v c]|];
      unfold has_title, dict_truthy, update_citations, set_citations;
      simpl.
    - destruct t, l, y, v, c, ugs; simpl;
        split_ifs; simpl; split_ifs;
        intros H; inversion H; subst; simpl; finish_shape.
    - intros H; inversion H; subst; simpl; finish_shape. }
  destruct (String.eqb source "openreview").
  { unfold_run. simpl.
    destruct (net_fetch_openreview_info net [] paper_id) as [[t l y v c]|];
      unfold has_title, citations_is_na, dict_truthy, update_citations,
        set_citations; simpl.
    - destruct t, l, y, v, c as [[| |]|], ugs; simpl;
        split_ifs; simpl; split_ifs;
        intros H; inversion H; subst; simpl; finish_shape.
    - intros H; inversion H; subst; simpl; finish_shape. }
  destruct (String.eqb source "doi").
  { unfold_run. simpl.
    destruct (net_get_semantic_scholar_info net []
                (String "D" (String "O" (String "I" (String ":" paper_id)))))
      as [[t l y v c]|];
      unfold has_title, dict_truthy, update_citations, set_citations;
      simpl.
    - destruct t, l, y, v, c, ugs; simpl;
        split_ifs; simpl; split_ifs;
        intros H; inversion H; subst; simpl; finish_shape.
    - intros H; inversion H; subst; simpl; finish_shape. }
  unfold ret. intros H; inversion H; subst; simpl. finish_shape.
Qed.

Lemma format_output_raises (p : option paper_info) (m : Z) (e : exn) :
  format_output p m = Raise e -> exists k : string, e = KeyError k.
Proof.
  destruct p as [[t l y v c]|]; simpl; [|discriminate].
  destruct (negb _); [discriminate|].
  destruct t, l, y, v, c; simpl; intros H; inversion H; eauto.
Qed.

Lemma print_output_cases (p : option paper_info) (a : args) (st : state) :
  (exists line : string,
      format_output p (max_authors a) = Ok line
      /\ print_output p a st
         = (Ok tt, mk_state (calls st) (stdout st ++ [line]) (stderr st)))
  \/ (exists k : string, print_output p a st = (Raise (KeyError k), st)).
Proof.
  unfold print_output, bind, lift, print.
  destruct (format_output p (max_authors a)) as [line|e] eqn:E.
  - left. now exists line.
  - right. apply format_output_raises in E. destruct E as (k & ->).
    now exists k.
Qed.

(** [main], by the record it has after its branch *)
Lemma run_cases (net : network) (a : args) :
  (exists (d : paper_info) (st : state),
      dict_truthy d = true
      /\ run net a = print_output (Some d) a st
      /\ stdout st = [] /\ stderr st = []
      /\ (calls st = []
          \/ exists (c : call) (rest : list call),
               calls st = c :: rest /\ is_enrichment_call c = false
               /\ forallb is_enrichment_call rest = true
               /\ (List.length rest <= 2)%nat)
      /\ exists d0 : paper_info,
           first_record net a = Some d0 /\ same_but_citations d0 d
           /\ (cites d = cites d0
               \/ exists c : citations, cites d = Some c /\ c <> NA))
  \/ (exists (st : state) (line : string) (lines : list string),
         run net a
         = (Raise (SystemExit 1),
            mk_state (calls st) [] (lines ++ [line]))
         /\ (calls st = []
             \/ exists (c : call) (rest : list call),
                  calls st = c :: rest /\ is_enrichment_call c = false
                  /\ forallb is_enrichment_call rest = true
                  /\ (List.length rest <= 2)%nat)
         /\ (first_record net a = None
             \/ first_record net a = Some empty_dict))
  \/ (exists st : state,
         run net a = (Raise (KeyError "title"), st)
         /\ stdout st = [] /\ stderr st = []
         /\ (exists (c : call) (rest : list call),
                calls st = c :: rest /\ is_enrichment_call c = false
                /\ forallb is_enrichment_call rest = true
                /\ (List.length rest <= 2)%nat)).
Proof.
  unfold first_record.
  destruct (test a) eqn:Ht.
  { unfold run, main. rewrite Ht.
    destruct (get_test_paper_info (url a)) as [d|] eqn:Hd.
    - assert (Htr : dict_truthy d = true).
      { unfold get_test_paper_info in Hd.
        repeat match type of Hd with
               | (if ?b then _ else _) = _ => destruct b
               end; inversion Hd; reflexivity. }
      left. exists d, initial_state. cbn [truthy]. rewrite Htr.
      repeat split; try (now left).
      exists d. unfold same_but_citations. tauto.
    - right. left.
      exists initial_state, "  3: CLIP",
        ["Error: Test ID '" ++ url a ++ "' not found. Available: 1, 2, 3";
         String "010" "Test papers:"; "  1: Attention Is All You Need";
         "  2: BERT"].
      repeat split; now left. }
  destruct (google_scholar a) eqn:Hg.
  { rewrite (run_title_search net a Ht Hg).
    destruct (net_search_google_scholar net [] (url a)) as [d|] eqn:Hd;
      cbn [truthy].
    - destruct (dict_truthy d) eqn:Htr; cbn [negb].
      + left. exists d, (mk_state [SearchGoogleScholar (url a)] [] []).
        repeat split; try assumption.
        * right. exists (SearchGoogleScholar (url a)), []. simpl.
          repeat split; lia.
        * exists d. unfold same_but_citations. tauto.
      + right. left.
        exists (mk_state [SearchGoogleScholar (url a)] [] []),
          "Error: Could not find paper on Google Scholar", [].
        repeat split.
        * right. exists (SearchGoogleScholar (url a)), []. simpl.
          repeat split; lia.
        * right. f_equal. destruct d as [[?|] [?|] [?|] [?|] [?|]];
            try discriminate. reflexivity.
    - right. left.
      exists (mk_state [SearchGoogleScholar (url a)] [] []),
        "Error: Could not find paper on Google Scholar", [].
      repeat split.
      + right. exists (SearchGoogleScholar (url a)), []. simpl.
        repeat split; lia.
      + now left. }
  destruct (parse_url (url a)) as [[source paper_id]|] eqn:Hp.
  - rewrite (run_parsed net a source paper_id Ht Hg Hp).
    destruct (resolve net (use_google_scholar_citations a) source paper_id
                initial_state) as [r st] eqn:Hr.
    destruct (resolve_shape _ _ _ _ _ _ Hr) as (Hout & Herr & Hcalls & Hrec).
    destruct r as [[d'|]|e].
    + destruct Hrec as (d0 & Hd0 & Hsame & Hcit).
      cbn [truthy]. destruct (dict_truthy d') eqn:Htr; cbn [negb].
      * left. exists d', st. repeat split; try assumption.
        now exists d0.
      * right. left.
        exists st, ("Error: Could not fetch paper information from " ++ source),
          [].
        rewrite Hout, Herr. repeat split; [assumption|].
        right. rewrite Hd0. f_equal.
        destruct Hsame as (H1 & H2 & H3 & H4).
        destruct d' as [[?|] [?|] [?|] [?|] [?|]]; try discriminate.
        simpl in *.
        destruct d0 as [t0 l0 y0 v0 c0]; simpl in *. subst.
        destruct Hcit as [<- | (c & Hc & _)]; [reflexivity | discriminate].
    + right. left.
      exists st, ("Error: Could not fetch paper information from " ++ source),
        [].
      cbn [truthy negb]. rewrite Hout, Herr.
      repeat split; [assumption | now left].
    + right. right. subst e. exists st.
      repeat split; try assumption.
      destruct Hcalls as [Hnil | Hc]; [|assumption].
      exfalso. revert Hr Hnil. clear.
      unfold resolve.
      repeat match goal with
             | |- context [if ?b then _ else _] => destruct b
             end;
        unfold_run; simpl; try discriminate;
        match goal with
        | |- context [match ?x with _ => _ end] => destruct x as [?|]
        end;
        repeat match goal with
               | |- context [if ?b then _ else _] => destruct b
               end;
        simpl;
        repeat match goal with
               | |- context [match ?x with _ => _ end] => destruct x
               end;
        intros H; inversion H; subst; discriminate.
  - right. left. unfold run, main. rewrite Ht, Hg, Hp.
    exists initial_state, "Or use --google-scholar flag to search by title",
      ["Error: Unsupported URL format: " ++ url a;
       "Supported sources: arXiv, Semantic Scholar, OpenReview"].
    repeat split; now left.
Qed.


(** X10: the network calls of a run are, in order, at most one adapter
    call and then at most two citation look-ups; no citation source is
    asked before an adapter has been, and no run makes more than three
    calls. *)
Theorem call_discipline (net : network) (a : args) :
  calls (snd (run net a)) = []
  \/ exists (c : call) (rest : list call),
       calls (snd (run net a)) = c :: rest
       /\ is_enrichment_call c = false
       /\ forallb is_enrichment_call rest = true
       /\ (List.length rest <= 2)%nat.
Proof.
  destruct (run_cases net a)
    as [(d & st & _ & -> & _ & _ & Hc & _)
       | [(st & line & lines & -> & Hc & _) | (st & -> & _ & _ & Hc)]].
  - now rewrite print_output_calls.
  - exact Hc.
  - now right.
Qed.

(** X11: when a run returns, the line it printed is the formatted record
    of the adapter (or of the test table) with at most its citations
    changed, and changed only to an answer other than ['N/A']: title,
    authors, year and venue are never touched after the adapter call. *)
Theorem printed_line_provenance (net : network) (a : args) :
  fst (run net a) = Ok tt ->
  exists (d0 d : paper_info) (line : string),
    first_record net a = Some d0
    /\ same_but_citations d0 d
    /\ (cites d = cites d0
        \/ exists c : citations, cites d = Some c /\ c <> NA)
    /\ format_output (Some d) (max_authors a) = Ok line
    /\ stdout (snd (run net a)) = [line].
Proof.
  destruct (run_cases net a)
    as [(d & st & _ & -> & Hout & _ & _ & d0 & Hd0 & Hsame & Hcit)
       | [(st & line & lines & -> & _) | (st & -> & _)]];
    try discriminate.
  destruct (print_output_cases (Some d) a st)
    as [(line & Hline & ->) | (k & ->)]; [|discriminate].
  intros _. exists d0, d, line. cbn. rewrite Hout. tauto.
Qed.

Lemma printed_line_provenance_witness :
  exists (d0 d : paper_info) (line : string),
    first_record
      (constant_network (Some (sample_record NA)) NA (Count 42))
      (sample_args arxiv_url true)
    = Some d0
    /\ same_but_citations d0 d
    /\ (cites d = cites d0
        \/ exists c : citations, cites d = Some c /\ c <> NA)
    /\ format_output (Some d) 3 = Ok line
    /\ stdout (snd (run
         (constant_network (Some (sample_record NA)) NA (Count 42))
         (sample_args arxiv_url true)))
       = [line].
Proof.
  exact (printed_line_provenance
           (constant_network (Some (sample_record NA)) NA (Count 42))
           (sample_args arxiv_url true) eq_refl).
Defined.

(** A branch whose adapter answers [None] stops after that call. *)
Lemma resolve_none (net : network) (ugs : bool) (source paper_id : string) :
  adapter_record net source paper_id = None ->
  exists log : list call,
    existsb is_enrichment_call log = false
    /\ resolve net ugs source paper_id initial_state
       = (Ok None, mk_state log [] []).
Proof.
  unfold adapter_record, resolve.
  destruct (String.eqb source "arxiv").
  { intros Hd. exists [FetchArxivInfo paper_id]. split; [reflexivity|].
    unfold_run. simpl. now rewrite Hd. }
  destruct (String.eqb source "semantic_scholar").
  { intros Hd. exists [GetSemanticScholarInfo paper_id].
    split; [reflexivity|]. unfold_run. simpl. now rewrite Hd. }
  destruct (String.eqb source "openreview").
  { intros Hd. exists [FetchOpenreviewInfo paper_id].
    split; [reflexivity|]. unfold_run. simpl. now rewrite Hd. }
  destruct (String.eqb source "doi").
  { intros Hd. exists [GetSemanticScholarInfo ("DOI:" ++ paper_id)].
    split; [reflexivity|]. unfold_run. simpl. simpl in Hd. now rewrite Hd. }
  intros _. now exists [].
Qed.

(** X12: when there is no record to start from (an unknown test
    identifier, a link that is not recognised, an adapter or a title
    search that answers [None]), [main] exits with status 1, prints
    nothing, and asks no citation source. *)
Theorem no_record_fails (net : network) (a : args) :
  first_record net a = None ->
  fst (run net a) = Raise (SystemExit 1)
  /\ stdout (snd (run net a)) = []
  /\ stderr (snd (run net a)) <> []
  /\ existsb is_enrichment_call (calls (snd (run net a))) = false.
Proof.
  unfold first_record.
  destruct (test a) eqn:Ht.
  { intros Hd. unfold run, main. rewrite Ht, Hd.
    repeat split. discriminate. }
  destruct (google_scholar a) eqn:Hg.
  { intros Hd. rewrite (run_title_search net a Ht Hg), Hd.
    repeat split. discriminate. }
  destruct (parse_url (url a)) as [[source paper_id]|] eqn:Hp.
  - intros Hd.
    destruct (resolve_none net (use_google_scholar_citations a)
                source paper_id Hd) as (log & Hlog & Hres).
    rewrite (run_parsed net a source paper_id Ht Hg Hp), Hres.
    repeat split; [discriminate | exact Hlog].
  - intros _. unfold run, main. rewrite Ht, Hg, Hp.
    repeat split. discriminate.
Qed.

Lemma no_record_fails_witness :
  fst (run (constant_network None (Count 1) (Count 2))
           (sample_args arxiv_url true))
  = Raise (SystemExit 1)
  /\ calls (snd (run (constant_network None (Count 1) (Count 2))
                     (sample_args arxiv_url true)))
     = [FetchArxivInfo "1706.03762"].
Proof.
  split.
  - exact (proj1 (no_record_fails
                    (constant_network None (Count 1) (Count 2))
                    (sample_args arxiv_url true) eq_refl)).
  - reflexivity.
Defined.

(** X13: on the [arxiv] path, when the first citation source of the
    chosen order answers ['N/A'] and the second one a value [c] that is
    not ['N/A'], the record that is printed carries [c], after the
    adapter call and the two look-ups in that order. *)
Theorem enrichment_falls_back (net : network) (a : args)
        (paper_id t : string) (d : paper_info) (c : citations) :
  test a = false -> google_scholar a = false ->
  parse_url (url a) = Some ("arxiv", paper_id) ->
  net_fetch_arxiv_info net [] paper_id = Some d ->
  cites d = Some NA -> title d = Some t ->
  citation_answer net [FetchArxivInfo paper_id]
    (first_source_call (use_google_scholar_citations a) paper_id t)
  = NA ->
  citation_answer net
    [FetchArxivInfo paper_id;
     first_source_call (use_google_scholar_citations a) paper_id t]
    (second_source_call (use_google_scholar_citations a) paper_id t)
  = c ->
  c <> NA ->
  run net a
  = print_output (Some (set_citations d c)) a
      (mk_state
         [FetchArxivInfo paper_id;
          first_source_call (use_google_scholar_citations a) paper_id t;
          second_source_call (use_google_scholar_citations a) paper_id t]
         [] []).
Proof.
  intros Ht Hg Hp Hd Hc Htitle H1 H2 Hna.
  pose proof (parse_url_arxiv_id _ _ Hp) as Hid.
  rewrite (run_parsed net a "arxiv" paper_id Ht Hg Hp).
  assert (Hres : resolve net (use_google_scholar_citations a) "arxiv"
                   paper_id initial_state
                 = (Ok (Some (set_citations d c)),
                    mk_state
                      [FetchArxivInfo paper_id;
                       first_source_call (use_google_scholar_citations a)
                                         paper_id t;
                       second_source_call (use_google_scholar_citations a)
                                          paper_id t] [] [])).
  { unfold resolve. simpl. unfold_run. simpl. rewrite Hd.
    assert (Htr : dict_truthy d = true).
    { unfold dict_truthy. rewrite Hc.
      now destruct (title d), (authors d), (year d), (venue d). }
    unfold citations_is_na, update_citations. rewrite Htr, Hc. simpl.
    rewrite (proj2 (is_empty_false paper_id) Hid).
    unfold first_source_call, second_source_call, google_call,
      semantic_call in *.
    destruct (use_google_scholar_citations a); simpl in *.
    - rewrite Htitle. simpl. rewrite H1. simpl. rewrite H2.
      destruct c; simpl; [reflexivity | contradiction | reflexivity].
    - rewrite H1. simpl. rewrite Htitle. simpl. rewrite H2.
      destruct c; simpl; [reflexivity | contradiction | reflexivity]. }
  rewrite Hres. now rewrite truthy_set_citations.
Qed.

Lemma enrichment_falls_back_witness :
  run (constant_network (Some (sample_record NA)) (Count 7) NA)
      (sample_args arxiv_url false)
  = (Ok tt,
     mk_state
       [FetchArxivInfo "1706.03762";
        CitationsSemanticScholar (PaperId "arXiv:1706.03762");
        CitationsGoogleScholar "Attention Is All You Need"]
       ["**Attention Is All You Need** Vaswani, A. and Shazeer, N. 2017. arXiv. Citations: 7"]
       []).
Proof.
  exact (enrichment_falls_back
           (constant_network (Some (sample_record NA)) (Count 7) NA)
           (sample_args arxiv_url false)
           "1706.03762" "Attention Is All You Need" (sample_record NA)
           (Count 7) eq_refl eq_refl eq_refl eq_refl eq_refl eq_refl
           eq_refl eq_refl ltac:(discriminate)).
Defined.

(** ** Pieces of the adapters *)

Lemma contains_iff (needle hay : string) :
  contains needle hay = true <-> occurs_in needle hay.
Proof.
  unfold occurs_in. split.
  - induction hay as [|c hay IH]; simpl.
    + destruct (strip_prefix needle "") as [rest|] eqn:E; [|discriminate].
      intros _. apply strip_prefix_inv in E. now exists "", rest.
    + destruct (strip_prefix needle (String c hay)) as [rest|] eqn:E.
      * intros _. apply strip_prefix_inv in E. now exists "", rest.
      * intros H. destruct (IH H) as (pre & post & ->).
        now exists (String c pre), post.
  - intros (pre & post & ->).
    induction pre as [|c pre IH].
    + change ("" ++ needle ++ post) with (needle ++ post).
      destruct (needle ++ post) eqn:E; simpl; rewrite <- E;
        now rewrite strip_prefix_app.
    + change (String c pre ++ needle ++ post)
        with (String c (pre ++ needle ++ post)).
      cbn [contains]. rewrite IH.
      now destruct (strip_prefix needle (String c (pre ++ needle ++ post))).
Qed.

Lemma star_exact {A : Type} (cls : ascii -> bool) (s1 s2 : string)
      (k : string -> option A) (a : A) :
  all_in cls s1 = true -> starts_in cls s2 = false -> k s2 = Some a ->
  star cls (s1 ++ s2) k = Some a.
Proof.
  intros Hall Hst Hk.
  induction s1 as [|c s1 IH]; simpl in *.
  - destruct s2 as [|c s2]; simpl in *; [assumption|].
    now rewrite Hst.
  - apply andb_true_iff in Hall. destruct Hall as [Hc Hall].
    now rewrite Hc, (IH Hall).
Qed.

Lemma search_at_start (pat : pattern) (s g : string) :
  match_at pat s = Some g -> search pat s = Some g.
Proof. intros H. destruct s; simpl; now rewrite H. Qed.

Lemma isdigit_cases (a : ascii) :
  Py.isdigit a = true ->
  forall d : Decimal.uint, exists d' : Decimal.uint,
    uint_of_char a (Some d) = Some d'.
Proof.
  destruct a as [[|] [|] [|] [|] [|] [|] [|] [|]];
    try discriminate; intros _ d; simpl; eauto.
Qed.

Lemma digits_parse (g : string) :
  all_in Py.isdigit g = true ->
  exists u : Decimal.uint, NilEmpty.uint_of_string g = Some u.
Proof.
  induction g as [|a g IH]; simpl.
  - intros _. now exists Decimal.Nil.
  - intros H. apply andb_true_iff in H. destruct H as [Ha Hg].
    destruct (IH Hg) as (u & ->).
    apply (isdigit_cases a Ha).
Qed.

Lemma digits_of_uint (u : Decimal.uint) :
  all_in Py.isdigit (NilEmpty.string_of_uint u) = true.
Proof. induction u; simpl; try rewrite IHu; reflexivity. Qed.

(** The decimal writing of a natural number, and reading it back *)
Lemma str_of_int_digits (n : Z) :
  (0 <= n)%Z ->
  Py.str_of_int n <> "" /\ all_in Py.isdigit (Py.str_of_int n) = true
  /\ int_of_digits (Py.str_of_int n) = Some n.
Proof.
  intros Hn. unfold Py.str_of_int, int_of_digits.
  assert (Hu : exists u : Decimal.uint,
             u <> Decimal.Nil /\ Z.to_int n = Decimal.Pos u).
  { destruct n as [|p|p]; [| |lia].
    - exists (Decimal.D0 Decimal.Nil). split; [discriminate | reflexivity].
    - exists (Pos.to_uint p).
      split; [apply DecimalPos.Unsigned.to_uint_nonnil | reflexivity]. }
  destruct Hu as (u & Hnil & Hu).
  pose proof (DecimalZ.of_to n) as Hback. rewrite Hu in *. simpl in Hback.
  simpl.
  assert (Hs : NilZero.string_of_uint u = NilEmpty.string_of_uint u).
  { now destruct u. }
  repeat split.
  - rewrite Hs. now destruct u.
  - rewrite Hs. apply digits_of_uint.
  - rewrite (NilZero.usu u Hnil). simpl. now f_equal.
Qed.

(** X14: the text ["Cited by "] followed by the decimal writing of a
    natural number [n] (and then by anything that does not start with a
    digit) is read as the count [n]. *)
Theorem cited_by_count_reads_back (n : Z) (rest : string) :
  (0 <= n)%Z -> starts_in Py.isdigit rest = false ->
  cited_by_count ("Cited by " ++ Py.str_of_int n ++ rest) = Count n.
Proof.
  intros Hn Hrest.
  destruct (str_of_int_digits n Hn) as (Hne & Hdig & Hint).
  unfold cited_by_count.
  assert (Hs : search cited_by_pattern
                 ("Cited by " ++ Py.str_of_int n ++ rest)
               = Some (Py.str_of_int n)).
  { apply search_at_start. unfold match_at, cited_by_pattern.
    cbn [before group1 rmatch]. rewrite strip_prefix_app.
    destruct (Py.str_of_int n) as [|c ds] eqn:E; [contradiction|].
    change (String c ds ++ rest) with (String c (ds ++ rest)).
    simpl in Hdig. apply andb_true_iff in Hdig. destruct Hdig as [Hc Hds].
    rewrite Hc.
    apply (star_exact Py.isdigit ds rest); [assumption | assumption|].
    f_equal. apply (consumed_app (String c ds) rest). }
  now rewrite Hs, Hint.
Qed.

Lemma cited_by_count_reads_back_witness :
  cited_by_count "Cited by 98234" = Count 98234.
Proof. exact (cited_by_count_reads_back 98234 "" ltac:(lia) eq_refl). Defined.

(** X15: the count read off a text is ['N/A'] exactly when the text has
    no ["Cited by "] followed by a digit; otherwise it is an integer, and
    never a negative one. *)
Theorem cited_by_count_range (cite_text : string) :
  (cited_by_count cite_text = NA
   /\ ~ (exists (pre post : string) (d : ascii),
            cite_text = pre ++ "Cited by " ++ String d post
            /\ Py.isdigit d = true))
  \/ (exists n : Z,
         (0 <= n)%Z /\ cited_by_count cite_text = Count n
         /\ exists (pre post : string) (d : ascii),
              cite_text = pre ++ "Cited by " ++ String d post
              /\ Py.isdigit d = true).
Proof.
  unfold cited_by_count.
  destruct (search cited_by_pattern cite_text) as [g|] eqn:E.
  - right.
    apply search_sound in E.
    destruct E as (skipped & pre & rest & -> & Hpre & Hg).
    simpl in Hpre, Hg. apply lang_lit_inv in Hpre. subst pre.
    inversion Hg as [| | | | | | cls c s Hc Hall]; subst.
    assert (Hdig : all_in Py.isdigit (String c s) = true).
    { simpl. now rewrite Hc, Hall. }
    destruct (digits_parse _ Hdig) as (u & Hu).
    unfold int_of_digits, NilZero.uint_of_string. rewrite Hu. simpl.
    exists (Z.of_uint u). repeat split.
    + unfold Z.of_uint. apply N2Z.is_nonneg.
    + exists skipped, (s ++ rest), c. split; [reflexivity | assumption].
  - left. split; [reflexivity|].
    intros (pre & post & d & -> & Hd).
    revert E. apply search_complete with (g := String d "") (rest := post)
                                         (pre := "Cited by ").
    + constructor.
    + now constructor.
Qed.

Lemma year20_at_sound (s y : string) :
  year20_at s = Some y ->
  exists (a b : ascii) (post : string),
    s = "20" ++ String a (String b post)
    /\ Py.isdigit a = true /\ Py.isdigit b = true
    /\ y = "20" ++ String a (String b "").
Proof.
  unfold year20_at.
  destruct (strip_prefix "20" s) as [[|a [|b post]]|] eqn:E; try discriminate.
  apply strip_prefix_inv in E.
  destruct (Py.isdigit a) eqn:Ha; [|discriminate].
  destruct (Py.isdigit b) eqn:Hb; [|discriminate].
  simpl. intros H. inversion H. now exists a, b, post.
Qed.

Lemma search_year20_sound (s y : string) :
  search_year20 s = Some y ->
  exists (pre : string) (a b : ascii) (post : string),
    s = pre ++ "20" ++ String a (String b post)
    /\ Py.isdigit a = true /\ Py.isdigit b = true
    /\ y = "20" ++ String a (String b "").
Proof.
  induction s as [|c s IH]; cbn [search_year20].
  - destruct (year20_at "") eqn:E; [|discriminate].
    apply year20_at_sound in E. destruct E as (a & b & post & E & _).
    discriminate E.
  - destruct (year20_at (String c s)) as [y'|] eqn:E.
    + intros H. inversion H; subst y'.
      apply year20_at_sound in E.
      destruct E as (a & b & post & E & Hrest).
      now exists "", a, b, post.
    + intros H. destruct (IH H) as (pre & a & b & post & -> & Hrest).
      now exists (String c pre), a, b, post.
Qed.

Lemma search_year20_complete (pre : string) (a b : ascii) (post : string) :
  Py.isdigit a = true -> Py.isdigit b = true ->
  search_year20 (pre ++ "20" ++ String a (String b post)) <> None.
Proof.
  intros Ha Hb.
  induction pre as [|c pre IH].
  - simpl. unfold year20_at. simpl. rewrite Ha, Hb. discriminate.
  - change (String c pre ++ "20" ++ String a (String b post))
      with (String c (pre ++ "20" ++ String a (String b post))).
    cbn [search_year20].
    now destruct (year20_at _).
Qed.

(** X16: the year the OpenReview adapter infers is ['N/A'] exactly when
    the invitation has no ["20"] followed by two digits; otherwise it is
    such a four-character piece of the invitation. *)
Theorem openreview_year_spec (invitation : string) :
  (openreview_year invitation = "N/A"
   /\ ~ (exists (pre : string) (a b : ascii) (post : string),
            invitation = pre ++ "20" ++ String a (String b post)
            /\ Py.isdigit a = true /\ Py.isdigit b = true))
  \/ (exists (pre : string) (a b : ascii) (post : string),
         invitation = pre ++ "20" ++ String a (String b post)
         /\ Py.isdigit a = true /\ Py.isdigit b = true
         /\ openreview_year invitation = "20" ++ String a (String b "")).
Proof.
  unfold openreview_year.
  destruct (search_year20 invitation) as [y|] eqn:E.
  - right. apply search_year20_sound in E.
    destruct E as (pre & a & b & post & H1 & H2 & H3 & H4).
    now exists pre, a, b, post.
  - left. split; [reflexivity|].
    intros (pre & a & b & post & -> & Ha & Hb).
    now apply (search_year20_complete pre a b post Ha Hb).
Qed.

Lemma contains_false (needle hay : string) :
  contains needle hay = false <-> ~ occurs_in needle hay.
Proof.
  rewrite <- contains_iff.
  destruct (contains needle hay); split; congruence.
Qed.

(** X17: the venue name the OpenReview adapter infers is the first of
    ["ICLR"], ["NeurIPS"] and ["ICML"] that occurs in the invitation, in
    this order whatever their places in the invitation are, and
    ["OpenReview"] exactly when none of them occurs. *)
Theorem openreview_venue_name_spec (invitation : string) :
  In (openreview_venue_name invitation)
     ["ICLR"; "NeurIPS"; "ICML"; "OpenReview"]
  /\ (occurs_in "ICLR" invitation ->
      openreview_venue_name invitation = "ICLR")
  /\ (~ occurs_in "ICLR" invitation -> occurs_in "NeurIPS" invitation ->
      openreview_venue_name invitation = "NeurIPS")
  /\ (~ occurs_in "ICLR" invitation -> ~ occurs_in "NeurIPS" invitation ->
      occurs_in "ICML" invitation ->
      openreview_venue_name invitation = "ICML")
  /\ (openreview_venue_name invitation = "OpenReview"
      <-> ~ occurs_in "ICLR" invitation /\ ~ occurs_in "NeurIPS" invitation
          /\ ~ occurs_in "ICML" invitation).
Proof.
  unfold openreview_venue_name.
  rewrite <- !contains_false, <- !contains_iff.
  destruct (contains "ICLR" invitation), (contains "NeurIPS" invitation),
    (contains "ICML" invitation); simpl;
    repeat split; intros; try tauto; try discriminate;
    try (intuition discriminate).
Qed.

Lemma openreview_venue_name_spec_witness :
  openreview_venue_name "NeurIPS.cc/2021/Workshop/ICLR_Rejects" = "ICLR".
Proof.
  refine (proj1 (proj2 (openreview_venue_name_spec
                          "NeurIPS.cc/2021/Workshop/ICLR_Rejects")) _).
  apply contains_iff. reflexivity.
Defined.

Lemma detect_conference_first (before : list string) (c : string)
      (after : list string) (text year : string) :
  occurs_in c text ->
  (forall b : string, In b before -> ~ occurs_in b text) ->
  snd (detect_conference (before ++ c :: after)%list text year) = c.
Proof.
  intros Hc.
  induction before as [|b before IH]; intros Hb; simpl.
  - apply contains_iff in Hc. now rewrite Hc.
  - rewrite (proj2 (contains_false b text) (Hb b (or_introl eq_refl))).
    apply IH. intros b' Hin. apply Hb. now right.
Qed.

Lemma detect_conference_none (confs : list string) (text year : string) :
  (forall c : string, In c confs -> ~ occurs_in c text) ->
  detect_conference confs text year = (year, "arXiv").
Proof.
  induction confs as [|c confs IH]; intros H; simpl; [reflexivity|].
  rewrite (proj2 (contains_false c text) (H c (or_introl eq_refl))).
  apply IH. intros c' Hin. apply H. now right.
Qed.

(** X18: the venue the arXiv page adapter reads off the comments is the
    first name of its list, in the order of the list, that occurs
    anywhere in the comment text, also inside a longer word; when no
    name of the list occurs the venue stays ["arXiv"]. *)
Theorem arxiv_web_venue_first (dateline : option string) (text : string)
        (before : list string) (c : string) (after : list string) :
  conferences = (before ++ c :: after)%list ->
  occurs_in c text ->
  (forall b : string, In b before -> ~ occurs_in b text) ->
  snd (arxiv_web_year_venue dateline (Some text)) = c.
Proof.
  intros Hl Hc Hb. unfold arxiv_web_year_venue. rewrite Hl.
  now apply detect_conference_first.
Qed.

Lemma arxiv_web_venue_first_witness :
  snd (arxiv_web_year_venue (Some "[Submitted on 11 Oct 2018]")
                            (Some "Accepted at NAACL 2019"))
  = "ACL".
Proof.
  refine (arxiv_web_venue_first (Some "[Submitted on 11 Oct 2018]")
            "Accepted at NAACL 2019"
            ["NeurIPS"; "ICLR"; "ICML"; "CVPR"; "ICCV"; "ECCV"] "ACL"
            ["EMNLP"; "AAAI"] eq_refl _ _).
  - apply contains_iff. reflexivity.
  - intros b [H | [H | [H | [H | [H | [H | []]]]]]]; subst b;
      apply contains_false; reflexivity.
Defined.

(** X19: with no comments on the page, or with comments in which no
    name of the list occurs, the venue is ["arXiv"] and the year is the
    one of the dateline. *)
Theorem arxiv_web_no_conference (dateline : option string) (text : string) :
  (forall c : string, In c conferences -> ~ occurs_in c text) ->
  arxiv_web_year_venue dateline (Some text)
  = arxiv_web_year_venue dateline None
  /\ snd (arxiv_web_year_venue dateline None) = "arXiv".
Proof.
  intros H. unfold arxiv_web_year_venue.
  now rewrite (detect_conference_none conferences text _ H).
Qed.

Lemma arxiv_web_no_conference_witness :
  arxiv_web_year_venue (Some "[Submitted on 12 Jun 2017]")
                       (Some "15 pages, 5 figures")
  = ("2017", "arXiv").
Proof.
  refine (proj1 (arxiv_web_no_conference (Some "[Submitted on 12 Jun 2017]")
                   "15 pages, 5 figures" _)).
  intros c [H | [H | [H | [H | [H | [H | [H | [H | [H | []]]]]]]]]];
    subst c; apply contains_false; reflexivity.
Defined.

Lemma four_digits_sound (s y : string) :
  four_digits s = Some y ->
  String.length y = 4%nat /\ all_in Py.isdigit y = true.
Proof.
  unfold four_digits.
  destruct s as [|a [|b [|c [|d s]]]]; try discriminate.
  destruct (Py.isdigit a) eqn:Ha; [|discriminate].
  destruct (Py.isdigit b) eqn:Hb; [|discriminate].
  destruct (Py.isdigit c) eqn:Hc; [|discriminate].
  destruct (Py.isdigit d) eqn:Hd; [|discriminate].
  simpl. intros H. inversion H. simpl. now rewrite Ha, Hb, Hc, Hd.
Qed.

Lemma search_four_digits_sound (s y : string) :
  search_four_digits s = Some y ->
  String.length y = 4%nat /\ all_in Py.isdigit y = true.
Proof.
  induction s as [|c s IH]; cbn [search_four_digits].
  - destruct (four_digits "") eqn:E; [|discriminate].
    intros H; inversion H; subst. now apply four_digits_sound in E.
  - destruct (four_digits (String c s)) as [y'|] eqn:E.
    + intros H; inversion H; subst. now apply four_digits_sound in E.
    + exact IH.
Qed.

Lemma search_conf_year_sound (conf s y : string) :
  search_conf_year conf s = Some y ->
  String.length y = 4%nat /\ all_in Py.isdigit y = true.
Proof.
  induction s as [|c s IH]; cbn [search_conf_year].
  - destruct (conf_year_at conf "") eqn:E; [|discriminate].
    intros H; inversion H; subst. unfold conf_year_at in E.
    destruct (strip_prefix conf ""); [|discriminate].
    now apply four_digits_sound in E.
  - destruct (conf_year_at conf (String c s)) as [y'|] eqn:E.
    + intros H; inversion H; subst. unfold conf_year_at in E.
      destruct (strip_prefix conf (String c s)); [|discriminate].
      now apply four_digits_sound in E.
    + exact IH.
Qed.

(** X20: whatever the dateline and the comments say, the year the arXiv
    page adapter puts in its record is ['N/A'] or four digits, and the
    venue is ["arXiv"] or a name of its list. *)
Theorem arxiv_web_year_venue_range (dateline comments : option string) :
  (fst (arxiv_web_year_venue dateline comments) = "N/A"
   \/ (String.length (fst (arxiv_web_year_venue dateline comments)) = 4%nat
       /\ all_in Py.isdigit (fst (arxiv_web_year_venue dateline comments))
          = true))
  /\ In (snd (arxiv_web_year_venue dateline comments))
        ("arXiv" :: conferences).
Proof.
  unfold arxiv_web_year_venue.
  set (year := match dateline with
               | Some text => match search_four_digits text with
                              | Some y => y
                              | None => "N/A"
                              end
               | None => "N/A"
               end).
  assert (Hy : year = "N/A"
               \/ (String.length year = 4%nat
                   /\ all_in Py.isdigit year = true)).
  { unfold year. destruct dateline as [text|]; [|now left].
    destruct (search_four_digits text) as [y|] eqn:E; [|now left].
    right. now apply search_four_digits_sound in E. }
  clearbody year.
  destruct comments as [text|]; [|split; [exact Hy | now left]].
  assert (G : forall confs : list string,
             (forall c, In c confs -> In c conferences) ->
             (fst (detect_conference confs text year) = "N/A"
              \/ (String.length (fst (detect_conference confs text year))
                  = 4%nat
                  /\ all_in Py.isdigit
                       (fst (detect_conference confs text year)) = true))
             /\ In (snd (detect_conference confs text year))
                   ("arXiv" :: conferences)).
  { induction confs as [|c confs IH]; intros Hsub; simpl.
    - split; [exact Hy | now left].
    - destruct (contains c text).
      + split.
        * cbn [fst]. destruct (search_conf_year c text) as [y|] eqn:E;
            [|exact Hy].
          right. now apply search_conf_year_sound in E.
        * right. apply Hsub. now left.
      + apply IH. intros c' Hin. apply Hsub. now right. }
  apply G. auto.
Qed.

(** X21: the venue the Semantic Scholar adapter puts in its record is
    never empty and never [None]: it is the ['venue'] of the answer when
    that is a non-empty string; when the ['venue'] is [null] or empty, it
    is the name of the ['publicationVenue'] if that is a non-empty
    string. *)
Theorem semantic_scholar_venue_spec (venue : json_str)
        (publicationVenue : json_venue) :
  exists s : string,
    semantic_scholar_venue venue publicationVenue = Some s
    /\ s <> ""
    /\ (forall x : string, venue = JStr x -> x <> "" -> s = x)
    /\ (forall (x : string) (other_keys : bool),
           venue = JNull \/ venue = JStr "" ->
           publicationVenue = PVObject (JStr x) other_keys -> x <> "" ->
           s = x).
Proof.
  unfold semantic_scholar_venue.
  destruct venue as [| |[|c v]];
    destruct publicationVenue as [| |[| |[|c' n]] [|]];
    simpl; eexists; (split; [reflexivity|]);
    (split; [discriminate|]);
    split; intros; intuition congruence.
Qed.

Lemma semantic_scholar_venue_spec_witness :
  semantic_scholar_venue JNull (PVObject (JStr "ICML") false) = Some "ICML".
Proof.
  destruct (semantic_scholar_venue_spec JNull (PVObject (JStr "ICML") false))
    as (s & Hs & _ & _ & H).
  rewrite Hs. f_equal.
  apply (H "ICML" false); [now left | reflexivity | discriminate].
Defined.


